(** * cabot-alert-slack: the Slack alert plugin of Cabot

    A shallow embedding of [cabot_alert_slack/models.py] and the properties
    of its response check, its channel-membership reconciliation, its
    notification policy and its dispatcher [SlackAlert.send_alert].

    Conventions of the embedding.
    - Decoded JSON values and the dictionaries the code builds are values of
      [json]; Python's [None] is [JNull].  Numbers are integers: of a
      number the code only ever takes the truth value.
    - The remote Slack server is a deterministic transition system
      [handle : Server -> Request -> Response * Server]; every HTTP request
      the code issues is appended to a trace together with its response.
      Failures below HTTP (no connection, a timeout) are not modelled: every
      request gets a response.
    - Exceptions are values of [exn]; code that may raise lives in the
      monad [M], whose outcomes are [Ok], [Raise] or [OutOfFuel] (the last
      one only for the unbounded [while True] loop of the member listing).
    - Calls to [logger] append a [LogEntry], the format string with its
      arguments, to the state.
    - Slack user identifiers are strings, as the type comments of the
      source say; a payload that carries something else in their place is
      collapsed into [TypeError].
    - A Python [set] of identifiers is a [gset string]; [elements] fixes the
      order in which it is listed, which Python leaves unspecified.
    - The accessors of the host (the last result of a check, its status
      link, its image, the overrides of a user) are fields of records: they
      are read, never computed here. *)

From Stdlib Require Import Ascii.
From stdpp Require Import gmap strings list pretty.

Set Warnings "-register-all".
Open Scope string_scope.
Open Scope list_scope.
Open Scope Z_scope.

(** ** Decoded JSON and Python dictionaries *)

Inductive json : Type :=
| JNull
| JBool (b : bool)
| JNum (n : Z)
| JStr (s : string)
| JArr (l : list json)
| JObj (o : list (string * json)).

Abbreviation dict := (list (string * json)).

(** [d[k]] as a lookup; the first binding of a key is the one in force. *)
Fixpoint dict_lookup (k : string) (d : dict) : option json :=
  match d with
  | [] => None
  | (k', v) :: d' => if String.eqb k k' then Some v else dict_lookup k d'
  end.

(** [d[k] = v] *)
Fixpoint dict_set (k : string) (v : json) (d : dict) : dict :=
  match d with
  | [] => [(k, v)]
  | (k', v') :: d' =>
      if String.eqb k k' then (k, v) :: d' else (k', v') :: dict_set k v d'
  end.

(** Python truth value of a decoded JSON value. *)
Definition py_truthy (j : json) : bool :=
  match j with
  | JNull => false
  | JBool b => b
  | JNum n => negb (n =? 0)
  | JStr s => negb (String.eqb s "")
  | JArr l => match l with [] => false | _ => true end
  | JObj o => match o with [] => false | _ => true end
  end.

(** Truth value of a Python string. *)
Definition str_truthy (s : string) : bool := negb (String.eqb s "").

(** Truth value of a string attribute that may be [None]. *)
Definition opt_truthy (o : option string) : bool :=
  match o with
  | Some s => str_truthy s
  | None => false
  end.

(** [j == s] for a string literal [s]. *)
Definition py_eq_str (j : json) (s : string) : bool :=
  match j with
  | JStr t => String.eqb t s
  | _ => false
  end.

(** ** Exceptions and outcomes *)

Inductive exn : Type :=
| HTTPError (message : string)
| SlackAPIError (error_type : json) (errors : json)
| RuntimeError (message : string)
| AttributeError (message : string)
| KeyError (key : string)
| TypeError
| ValueError.

Inductive res (A : Type) : Type :=
| Ok (a : A)
| Raise (e : exn)
| OutOfFuel.
Arguments Ok {A} a.
Arguments Raise {A} e.
Arguments OutOfFuel {A}.

Definition res_bind {A B} (r : res A) (k : A -> res B) : res B :=
  match r with
  | Ok a => k a
  | Raise e => Raise e
  | OutOfFuel => OutOfFuel
  end.

(** [j.get(k, dflt)]; anything but a dictionary has no [get]. *)
Definition py_get (j : json) (k : string) (dflt : json) : res json :=
  match j with
  | JObj o => Ok (default dflt (dict_lookup k o))
  | _ => Raise (AttributeError "get")
  end.

(** [j[k]] for a string key. *)
Definition py_getitem (j : json) (k : string) : res json :=
  match j with
  | JObj o =>
      match dict_lookup k o with
      | Some v => Ok v
      | None => Raise (KeyError k)
      end
  | _ => Raise TypeError
  end.

(** ** HTTP requests and responses *)

Inductive verb : Type := GET | POST.

Inductive payload : Type :=
| Params (params : dict)
| JsonBody (body : dict)
| Multipart (data : dict) (files : list (string * string)) (timeout : Z).

Record Request : Type := mkRequest {
  req_verb : verb;
  req_url : string;
  req_headers : dict;
  req_payload : payload
}.

(** A response of the [requests] library.  [http_error_msg] is the message
    [raise_for_status] composes for a failing status; [json_body] is what
    [response.json()] decodes, [None] when the body is not JSON. *)
Record Response : Type := mkResponse {
  status_code : Z;
  http_error_msg : string;
  text : string;
  json_body : option json
}.

(** [Response.raise_for_status] of the [requests] library: client (4xx) and
    server (5xx) statuses raise [HTTPError], every other status passes. *)
Definition raise_for_status (response : Response) : res unit :=
  if (400 <=? status_code response) && (status_code response <? 600)
  then Raise (HTTPError (http_error_msg response))
  else Ok tt.

(** [response.json()] *)
Definition response_json (response : Response) : res json :=
  match json_body response with
  | Some j => Ok j
  | None => Raise ValueError
  end.

(** [_check_response(response, check_ok=True)] *)
Definition _check_response (response : Response) (check_ok : bool) : res unit :=
  match raise_for_status response with
  | Raise (HTTPError message) =>
      Raise (HTTPError (message +:+ ", response body: " +:+ text response))
  | Raise e => Raise e
  | OutOfFuel => OutOfFuel
  | Ok _ =>
      if check_ok then
        res_bind (response_json response) (fun j =>
        res_bind (py_get j "ok" JNull) (fun ok =>
        if negb (py_truthy ok) then
          res_bind (py_get j "error" (JStr "<error field missing>")) (fun error_type =>
          res_bind (py_get j "errors" JNull) (fun errors =>
          Raise (SlackAPIError error_type errors)))
        else Ok tt))
      else Ok tt
  end.

(** ** The host: Cabot users, checks and services (read surface only) *)

(** A Django [User]; [slack_user_id_overrides] are the
    [slack_user_id_override] fields of the [SlackAlertUserData] rows that
    [SlackAlertUserData.objects.filter(user__user=user)] yields, in order. *)
Record User : Type := mkUser {
  user_pk : Z;
  email : string;
  username : string;
  first_name : string;
  last_name : string;
  slack_user_id_overrides : list string
}.

Record CheckResult : Type := mkCheckResult {
  error : option string;
  job_number : option Z
}.

(** A status check: [last_result] is [check.last_result()], [status_link]
    is [check.get_status_link()], [is_metrics_check] tells whether it is a
    [MetricsStatusCheckBase], [status_image] is [check.get_status_image()]. *)
Record Check : Type := mkCheck {
  check_pk : Z;
  check_name : string;
  last_result : option CheckResult;
  status_link : option string;
  is_metrics_check : bool;
  check_category : string;
  status_image : option string
}.

Record SlackInstance : Type := mkSlackInstance {
  server_url : string;
  access_token : string;
  default_channel_id : option string
}.

Record Service : Type := mkService {
  service_name : string;
  overall_status : string;
  old_overall_status : string;
  slack_instance : option SlackInstance;
  slack_channel_id : option string;
  all_failing_checks : list Check
}.

(** Modelled from the spec: the status constants of the host's [Service]
    class, which lives in Cabot and not in this repository.  Their values
    are the five names of the closed status set, the same strings as the
    keys of [EMOJIS] and as the status in the text the tests expect. *)
Definition WARNING_STATUS : string := "WARNING".
Definition ERROR_STATUS : string := "ERROR".
Definition CRITICAL_STATUS : string := "CRITICAL".
Definition PASSING_STATUS : string := "PASSING".
Definition ACKED_STATUS : string := "ACKED".

(** ** Logging *)

Inductive log_level : Type := LogWarning | LogException.

Inductive log_arg : Type :=
| ArgStr (s : string)
| ArgJson (j : json)
| ArgUser (u : User)
| ArgExn (e : exn).

Record LogEntry : Type := mkLogEntry {
  log_lvl : log_level;
  log_fmt : string;
  log_args : list log_arg
}.

(** ** The monad of the dispatcher: server state, request trace, log *)

Record State (Server : Type) : Type := mkState {
  srv : Server;
  trace : list (Request * Response);
  logs : list LogEntry
}.
Arguments mkState {Server} srv trace logs.
Arguments srv {Server} s.
Arguments trace {Server} s.
Arguments logs {Server} s.

Definition M (Server : Type) (A : Type) : Type :=
  State Server -> res A * State Server.

#[global] Instance M_ret {Server} : MRet (M Server) :=
  fun A a st => (Ok a, st).

#[global] Instance M_bind {Server} : MBind (M Server) :=
  fun A B k m st =>
    match m st with
    | (Ok a, st') => k a st'
    | (Raise e, st') => (Raise e, st')
    | (OutOfFuel, st') => (OutOfFuel, st')
    end.

Definition raise {Server A} (e : exn) : M Server A :=
  fun st => (Raise e, st).

Definition out_of_fuel {Server A} : M Server A :=
  fun st => (OutOfFuel, st).

Definition lift {Server A} (r : res A) : M Server A :=
  fun st => (r, st).

(** [try: m  except <classes>: h e]: the handler runs when [m] raises an
    exception that [caught] accepts. *)
Definition try_except {Server A} (m : M Server A) (caught : exn -> bool)
    (h : exn -> M Server A) : M Server A :=
  fun st =>
    match m st with
    | (Raise e, st') => if caught e then h e st' else (Raise e, st')
    | r => r
    end.

(** [except (requests.HTTPError, SlackAPIError)] *)
Definition http_or_api (e : exn) : bool :=
  match e with
  | HTTPError _ | SlackAPIError _ _ => true
  | _ => false
  end.

(** [isinstance(e, SlackAPIError) and e.error_type == code] *)
Definition is_api_error (code : string) (e : exn) : bool :=
  match e with
  | SlackAPIError error_type _ => py_eq_str error_type code
  | _ => false
  end.

(** [e.error_type]: only [SlackAPIError] has the attribute. *)
Definition exn_error_type (e : exn) : res json :=
  match e with
  | SlackAPIError error_type _ => Ok error_type
  | _ => Raise (AttributeError "error_type")
  end.

Definition log {Server} (lvl : log_level) (fmt : string) (args : list log_arg)
    : M Server unit :=
  fun st => (Ok tt, mkState (srv st) (trace st) (logs st ++ [mkLogEntry lvl fmt args])).

(** ** Module constants and string helpers *)

Definition IGNORE_USER_ID : string := "ignore".

Definition EMOJIS : list (string * string) :=
  [ ("WARNING", ":large_yellow_circle:");
    ("ERROR", ":red_circle:");
    ("CRITICAL", ":alert:");
    ("PASSING", ":large_green_circle:");
    ("ACKED", ":zipper_mouth_face:") ].

(** [EMOJIS.get(status, '')] *)
Fixpoint emoji_get (status : string) (table : list (string * string)) : string :=
  match table with
  | [] => ""
  | (k, v) :: table' => if String.eqb status k then v else emoji_get status table'
  end.

(** [sep.join(l)] *)
Fixpoint str_join (sep : string) (l : list string) : string :=
  match l with
  | [] => ""
  | [x] => x
  | x :: l' => x +:+ sep +:+ str_join sep l'
  end.

(** [s.upper()] on the ASCII letters; other characters, which a unicode
    string of the host could hold, stay as they are.  The five status names
    are ASCII. *)
Definition ascii_upper (c : ascii) : ascii :=
  let n := nat_of_ascii c in
  if ((97 <=? n) && (n <=? 122))%nat then ascii_of_nat (n - 32) else c.

Fixpoint str_upper (s : string) : string :=
  match s with
  | EmptyString => EmptyString
  | String c s' => String (ascii_upper c) (str_upper s')
  end.

(** [s[n:]] *)
Fixpoint str_drop (n : nat) (s : string) : string :=
  match n, s with
  | O, _ => s
  | S n', String _ s' => str_drop n' s'
  | S _, EmptyString => EmptyString
  end.

(** [s.replace(old, new)] for a non-empty [old]: scan from the left, and
    after a match continue behind it.  [fuel] bounds the number of steps;
    the length of [s] is always enough. *)
Fixpoint replace_from (fuel : nat) (old new s : string) : string :=
  match fuel with
  | O => s
  | S fuel' =>
      match s with
      | EmptyString => EmptyString
      | String c s' =>
          if String.prefix old s
          then new +:+ replace_from fuel' old new (str_drop (String.length old) s)
          else String c (replace_from fuel' old new s')
      end
  end.

(** With an empty [old], Python puts [new] before every character and at
    the end. *)
Fixpoint interleave (new s : string) : string :=
  match s with
  | EmptyString => new
  | String c s' => new +:+ String c (interleave new s')
  end.

Definition py_replace (old new s : string) : string :=
  match old with
  | EmptyString => interleave new s
  | _ => replace_from (String.length s) old new s
  end.

(** The backslash and the newline, which string literals cannot spell. *)
Definition backslash : string := String (ascii_of_nat 92) EmptyString.
Definition newline : string := String (ascii_of_nat 10) EmptyString.

(** [str(x)] of a value that is an integer or [None]. *)
Definition str_of_opt_int (o : option Z) : string :=
  match o with
  | Some n => pretty n
  | None => "None"
  end.

(** A JSON value the code uses as a [str]; values that the type comments
    of the source exclude are collapsed into [TypeError]. *)
Definition as_str (j : json) : res string :=
  match j with
  | JStr s => Ok s
  | _ => Raise TypeError
  end.

Fixpoint as_str_list_aux (l : list json) : res (list string) :=
  match l with
  | [] => Ok []
  | j :: l' =>
      res_bind (as_str j) (fun s =>
      res_bind (as_str_list_aux l') (fun ss => Ok (s :: ss)))
  end.

(** The [members] of a page as the code uses them in [user_ids += ...]:
    a list of strings.  Any other value, which Python would iterate
    (a string by its characters), is collapsed into [TypeError] as well. *)
Definition as_str_list (j : json) : res (list string) :=
  match j with
  | JArr l => as_str_list_aux l
  | _ => Raise TypeError
  end.

(** [j.get('response_metadata', {}).get('next_cursor')] (line 139) *)
Definition next_cursor (j : json) : res json :=
  res_bind (py_get j "response_metadata" (JObj [])) (fun metadata =>
  py_get metadata "next_cursor" JNull).

(** ** The notification policy of [send_alert] (lines 219-247) *)

(** The statements that precede the first API call: [None] is the early
    [return], [Some include_mentions] carries the flag on. *)
Definition mention_policy (current_status old_status : string) : option bool :=
  let include_mentions := true in
  let include_mentions :=
    if String.eqb current_status WARNING_STATUS then false else include_mentions in
  let include_mentions :=
    if String.eqb current_status ERROR_STATUS then
      if String.eqb old_status ERROR_STATUS then false else include_mentions
    else include_mentions in
  if String.eqb current_status PASSING_STATUS && String.eqb old_status ACKED_STATUS
  then None
  else
    let include_mentions :=
      if String.eqb current_status PASSING_STATUS then
        if String.eqb old_status WARNING_STATUS then false else include_mentions
      else include_mentions in
    if String.eqb current_status ACKED_STATUS then
      if String.eqb old_status ACKED_STATUS then None
      else if String.eqb old_status PASSING_STATUS then None
      else Some false
    else Some include_mentions.

Inductive Decision : Type := SUPPRESS | SEND_SILENT | SEND_WITH_MENTIONS.

(** The decision as the three-valued outcome: suppressed, sent without
    mentions, sent with mentions. *)
Definition decide_alert (previous current : string) : Decision :=
  match mention_policy current previous with
  | None => SUPPRESS
  | Some false => SEND_SILENT
  | Some true => SEND_WITH_MENTIONS
  end.

(** [_get_slack_api_for_service(service)], with [urljoin] of the standard
    library taken as a function of the host. *)
Definition _get_slack_api_for_service (urljoin : string -> string -> string)
    (service : Service) : res (string * dict * string) :=
  match slack_instance service with
  | None => Raise (RuntimeError "Slack instance not set.")
  | Some inst =>
      let channel_id := default_channel_id inst in
      let channel_id :=
        if opt_truthy (slack_channel_id service)
        then slack_channel_id service else channel_id in
      match channel_id with
      | Some c =>
          if str_truthy c then
            Ok (urljoin (server_url inst) "api/",
                [("Authorization", JStr ("Bearer " +:+ access_token inst))],
                c)
          else Raise (RuntimeError "Slack channel ID not set.")
      | None => Raise (RuntimeError "Slack channel ID not set.")
      end
  end.

(** ** The Chat API client and the dispatcher *)

Section SlackAlert.

Context {Server : Type}.

(** The remote server. *)
Variable handle : Server -> Request -> Response * Server.

(** The host's URL builders: [urljoin], the absolute URL of a check's
    page, the absolute URL of a user's alert-data page, and the setting
    [JENKINS_API]. *)
Variable urljoin : string -> string -> string.
Variable check_url : Z -> string.
Variable profile_url : Z -> string.
Variable JENKINS_API : string.

#[local] Abbreviation M := (M Server).

(** One HTTP exchange: the server answers and moves on, the exchange is
    recorded.  The exceptions that [requests] raises when no answer comes
    (a timeout, a refused connection), which no handler of [send_alert]
    names, have no counterpart here. *)
Definition http (req : Request) : M Response :=
  fun st =>
    let '(response, srv') := handle (srv st) req in
    (Ok response, mkState srv' (trace st ++ [(req, response)]) (logs st)).

Definition _email_to_slack_user_id (url : string) (headers : dict)
    (email : string) : M string :=
  response ← http (mkRequest GET (urljoin url "users.lookupByEmail") headers
                     (Params [("email", JStr email)]));
  lift (_check_response response true);;
  j ← lift (response_json response);
  u ← lift (py_getitem j "user");
  i ← lift (py_getitem u "id");
  lift (as_str i).

Definition _cabot_user_to_slack_user_id (url : string) (headers : dict)
    (user : User) : M string :=
  match List.find str_truthy (slack_user_id_overrides user) with
  | Some slack_user_id_override => mret slack_user_id_override
  | None => _email_to_slack_user_id url headers (email user)
  end.

(** The [while True] loop of [_get_channel_members]. *)
Fixpoint members_loop (fuel : nat) (url : string) (headers : dict)
    (params : dict) (user_ids : list string) : M (list string) :=
  match fuel with
  | O => out_of_fuel
  | S fuel' =>
      response ← http (mkRequest GET (urljoin url "conversations.members")
                         headers (Params params));
      lift (_check_response response true);;
      j ← lift (response_json response);
      members ← lift (py_getitem j "members");
      members ← lift (as_str_list members);
      let user_ids := user_ids ++ members in
      cursor ← lift (next_cursor j);
      let params := dict_set "cursor" cursor params in
      if negb (py_truthy cursor) then mret user_ids
      else members_loop fuel' url headers params user_ids
  end.

Definition _get_channel_members (fuel : nat) (url : string) (headers : dict)
    (channel_id : string) : M (gset string) :=
  let params := [("channel", JStr channel_id)] in
  user_ids ← members_loop fuel url headers params [];
  mret (list_to_set user_ids).

Definition _join_channel (url : string) (headers : dict)
    (channel_id : string) : M unit :=
  response ← http (mkRequest POST (urljoin url "conversations.join") headers
                     (JsonBody [("channel", JStr channel_id)]));
  lift (_check_response response true).

Definition _ensure_channel_members (fuel : nat) (url : string)
    (headers : dict) (channel_id : string) (user_ids : list string) : M unit :=
  if (length user_ids =? 0)%nat then mret tt
  else
    user_ids_in_channel ← _get_channel_members fuel url headers channel_id;
    let missing_user_ids :=
      elements ((list_to_set user_ids : gset string) ∖ user_ids_in_channel) in
    response ← http (mkRequest POST (urljoin url "conversations.invite") headers
                       (JsonBody [("channel", JStr channel_id);
                                  ("users", JStr (str_join "," missing_user_ids))]));
    lift (_check_response response true).

Definition _upload_file (url : string) (headers : dict) (file_name : string)
    (file_data : string) (channel_id : string) (thread_ts : json)
    (timeout_seconds : Z) : M json :=
  response ← http (mkRequest POST (urljoin url "files.upload") headers
                     (Multipart [("filename", JStr file_name);
                                 ("channels", JStr channel_id);
                                 ("thread_ts", thread_ts)]
                                [("file", file_data)]
                                timeout_seconds));
  lift (_check_response response true);;
  j ← lift (response_json response);
  lift (py_getitem j "file").

Definition _post_message (url : string) (headers : dict) (text : string)
    (blocks : list dict) (channel_id : string) : M json :=
  response ← http (mkRequest POST (urljoin url "chat.postMessage") headers
                     (JsonBody [("channel", JStr channel_id);
                                ("text", JStr text);
                                ("blocks", JArr (JObj <$> blocks))]));
  lift (_check_response response true);;
  j ← lift (response_json response);
  lift (py_getitem j "ts").


(** *** Message composition *)

(** The header block. *)
Definition header_block (service : Service) : dict :=
  let current_status := overall_status service in
  let emoji := emoji_get current_status EMOJIS in
  [("type", JStr "header");
   ("text", JObj [("type", JStr "plain_text");
                  ("text", JStr (emoji +:+ " " +:+ service_name service +:+
                                 " status is " +:+ str_upper current_status +:+
                                 " " +:+ emoji))])].

(** The escaped check name and error text of a section block. *)
Definition escaped_name (check : Check) : string :=
  py_replace ">" (backslash +:+ ">") (check_name check).

Definition escaped_error (error : option string) : string :=
  match error with
  | Some e => if str_truthy e then py_replace "`" (backslash +:+ "`") e else ""
  | None => ""
  end.

(** The markdown text of the section block of a failing check. *)
Definition section_text (check : Check) : string :=
  let last_result := last_result check in
  let error := match last_result with Some r => error r | None => None end in
  let check_link := check_url (check_pk check) in
  "*<" +:+ check_link +:+ "|" +:+ escaped_name check +:+ ">* - `" +:+
  escaped_error error +:+ "`".

(** The body of the loop over the failing checks: one section block, with
    the button accessory when there is a status link. *)
Definition check_block (check : Check) : dict :=
  let last_result := last_result check in
  let status_link := status_link check in
  let status_text := "" in
  let '(status_link, status_text) :=
    if is_metrics_check check then (status_link, "Grafana")
    else if String.eqb (check_category check) "Jenkins Check" then
      (Some (urljoin JENKINS_API "/" +:+ "job/" +:+ check_name check +:+ "/" +:+
             str_of_opt_int (match last_result with
                             | Some r => job_number r
                             | None => None
                             end) +:+ "/console"),
       "Jenkins")
    else (status_link, status_text) in
  let block :=
    [("type", JStr "section");
     ("text", JObj [("type", JStr "mrkdwn"); ("text", JStr (section_text check))])] in
  match status_link with
  | Some link =>
      if str_truthy link then
        dict_set "accessory"
          (JObj [("type", JStr "button");
                 ("text", JObj [("type", JStr "plain_text");
                                ("text", JStr status_text);
                                ("emoji", JBool false)]);
                 ("url", JStr link);
                 ("action_id", JStr "button-status")])
          block
      else block
  | None => block
  end.

(** The context block that mentions the resolved users. *)
Definition mention_block (user_ids : list string) : dict :=
  [("type", JStr "context");
   ("elements",
    JArr [JObj [("type", JStr "mrkdwn");
                ("text", JStr (str_join " " ((fun user_id => "<@" +:+ user_id +:+ ">") <$> user_ids)
                               +:+ " :point_up:"))]])].

(** The display name of a user that was not found. *)
Definition missing_user_name (user : User) : string :=
  let name := if str_truthy (email user) then email user else username user in
  if str_truthy (first_name user) && str_truthy (last_name user)
  then name +:+ " (" +:+ first_name user +:+ " " +:+ last_name user +:+ ")"
  else name.

Definition missing_users_str (missing_users : list User) : string :=
  str_join ", "
    ((fun user => missing_user_name user +:+ " (<" +:+ profile_url (user_pk user) +:+
                  "|profile>)") <$> missing_users).

(** The context block that names the users without a Slack account. *)
Definition missing_block (missing_users : list User) : dict :=
  [("type", JStr "context");
   ("elements",
    JArr [JObj [("type", JStr "mrkdwn");
                ("text", JStr ("Could not find Slack account for some users: " +:+
                               missing_users_str missing_users +:+ "." +:+ newline +:+
                               "Please ensure they have a Slack account. " +:+
                               "If their Slack email doesn't match their Cabot email, set a user ID override in " +:+
                               "their Cabot profile, or enter an ID of '" +:+ IGNORE_USER_ID +:+
                               "' to silence this warning."))]])].

(** All blocks of the message (lines 283-371). *)
Definition compose_blocks (service : Service) (failing_checks : list Check)
    (include_mentions : bool) (user_ids : list string)
    (missing_users : list User) : list dict :=
  let blocks := [header_block service] in
  let blocks := blocks ++ (check_block <$> failing_checks) in
  if include_mentions then
    let blocks :=
      match user_ids with
      | [] => blocks
      | _ => blocks ++ [mention_block user_ids]
      end in
    match missing_users with
    | [] => blocks
    | _ => blocks ++ [missing_block missing_users]
    end
  else blocks.

(** *** The dispatcher [send_alert] *)

(** Lines 252-260: join the channel, best effort. *)
Definition join_step (url : string) (headers : dict) (channel_id : string) : M unit :=
  try_except (_join_channel url headers channel_id) http_or_api (fun e =>
    if is_api_error "method_not_supported_for_channel_type" e then mret tt
    else log LogWarning "Could not join channel %s: %s." [ArgStr channel_id; ArgExn e]).

(** Lines 266-275: the loop that maps Cabot users to Slack user IDs. *)
Fixpoint resolve_users (url : string) (headers : dict) (users : list User)
    (user_ids : list string) (missing_users : list User)
    : M (list string * list User) :=
  match users with
  | [] => mret (user_ids, missing_users)
  | user :: users' =>
      '(user_ids, missing_users) ←
        try_except
          (user_id ← _cabot_user_to_slack_user_id url headers user;
           if negb (String.eqb user_id IGNORE_USER_ID)
           then mret (user_ids ++ [user_id], missing_users)
           else mret (user_ids, missing_users))
          http_or_api
          (fun e =>
             let missing_users := missing_users ++ [user] in
             if negb (is_api_error "users_not_found" e) then
               error_type ← lift (exn_error_type e);
               log LogException
                 "Failed to find Slack user for Cabot user %s, got unexpected error %s."
                 [ArgUser user; ArgJson error_type];;
               mret (user_ids, missing_users)
             else mret (user_ids, missing_users));
      resolve_users url headers users' user_ids missing_users
  end.

(** Lines 277-281: invite the resolved users, best effort. *)
Definition members_step (fuel : nat) (url : string) (headers : dict)
    (channel_id : string) (user_ids : list string) : M unit :=
  try_except (_ensure_channel_members fuel url headers channel_id user_ids)
    http_or_api
    (fun e => log LogException "Failed to add users to channel %s: %s"
                [ArgStr channel_id; ArgExn e]).

(** Lines 373-380: post the message; a failure is logged and raised again. *)
Definition post_step (url : string) (headers : dict) (text : string)
    (blocks : list dict) (channel_id : string) : M json :=
  try_except (_post_message url headers text blocks channel_id) http_or_api
    (fun e => log LogException "Error posting message to Slack channel %s: %s"
                [ArgStr channel_id; ArgExn e];;
              raise e).

(** The loop of lines 384-387 over [failing_checks[:5]]. *)
Fixpoint upload_loop (url : string) (headers : dict) (channel_id : string)
    (ts : json) (checks : list Check) : M unit :=
  match checks with
  | [] => mret tt
  | check :: checks' =>
      match status_image check with
      | Some image =>
          _upload_file url headers (check_name check +:+ ".png") image channel_id ts 30;;
          upload_loop url headers channel_id ts checks'
      | None => upload_loop url headers channel_id ts checks'
      end
  end.

(** Lines 382-390: upload the images, best effort. *)
Definition upload_step (url : string) (headers : dict) (channel_id : string)
    (ts : json) (failing_checks : list Check) : M unit :=
  try_except (upload_loop url headers channel_id ts (take 5 failing_checks))
    http_or_api
    (fun e => log LogException "Failed to get/upload images to channel ID %s: %s"
                [ArgStr channel_id; ArgExn e]).

Definition send_alert (fuel : nat) (service : Service)
    (users duty_officers : list User) : M unit :=
  let users := users ++ duty_officers in
  let current_status := overall_status service in
  let old_status := old_overall_status service in
  match mention_policy current_status old_status with
  | None => mret tt
  | Some include_mentions =>
      '(url, headers, channel_id) ← lift (_get_slack_api_for_service urljoin service);
      let failing_checks := all_failing_checks service in
      join_step url headers channel_id;;
      '(user_ids, missing_users) ← resolve_users url headers users [] [];
      members_step fuel url headers channel_id user_ids;;
      let blocks :=
        compose_blocks service failing_checks include_mentions user_ids missing_users in
      ts ← post_step url headers
             (service_name service +:+ " is " +:+ overall_status service)
             blocks channel_id;
      upload_step url headers channel_id ts failing_checks
  end.

End SlackAlert.

(** ** A stub server for concrete runs

    The stub routes a request by the shape of its payload and answers with
    canned responses; the pages of the member listing are served one per
    request, in order. *)

Record Stub : Type := mkStub {
  join_response : Response;
  lookup_response : string -> Response;
  member_pages : list Response;
  invite_response : Response;
  post_response : Response;
  upload_response : Response
}.

Definition ok_response (body : dict) : Response :=
  mkResponse 200 "" "" (Some (JObj (("ok", JBool true) :: body))).

Definition error_response (code : string) : Response :=
  mkResponse 200 "" "" (Some (JObj [("ok", JBool false); ("error", JStr code)])).

Definition status_response (status : Z) (message body : string) : Response :=
  mkResponse status message body None.

Definition has_key (k : string) (d : dict) : bool :=
  match dict_lookup k d with Some _ => true | None => false end.

Definition stub_handle (s : Stub) (req : Request) : Response * Stub :=
  match req_payload req with
  | Multipart _ _ _ => (upload_response s, s)
  | Params params =>
      match dict_lookup "email" params with
      | Some (JStr e) => (lookup_response s e, s)
      | Some _ => (error_response "invalid_arguments", s)
      | None =>
          match member_pages s with
          | [] => (ok_response [("members", JArr [])], s)
          | page :: pages =>
              (page, mkStub (join_response s) (lookup_response s) pages
                            (invite_response s) (post_response s) (upload_response s))
          end
      end
  | JsonBody body =>
      if has_key "blocks" body then (post_response s, s)
      else if has_key "users" body then (invite_response s, s)
      else (join_response s, s)
  end.

Definition stub_urljoin (base url : string) : string := base +:+ url.
Definition stub_check_url (pk : Z) : string := "http://localhost/check/" +:+ pretty pk +:+ "/".
Definition stub_profile_url (pk : Z) : string := "http://localhost/user/" +:+ pretty pk +:+ "/".

(** A server on which every operation succeeds. *)
Definition happy_stub : Stub :=
  mkStub (ok_response [])
         (fun e => ok_response [("user", JObj [("id", JStr ("U" +:+ e))])])
         [ok_response [("members", JArr [])]]
         (ok_response [])
         (ok_response [("ts", JStr "1700000000.000100")])
         (ok_response [("file", JObj [])]).

Definition initial (s : Stub) : State Stub := mkState s [] [].

Definition test_instance : SlackInstance :=
  mkSlackInstance "https://slack.com/" "SOME-TOKEN" (Some "default-channel").

Definition test_check : Check :=
  mkCheck 10104 "ES Metric Check" None None false "Metric Check" None.

Definition test_service (old current : string) (checks : list Check) : Service :=
  mkService "Service" current old (Some test_instance) (Some "C456") checks.

Definition test_user : User :=
  mkUser 1 "dolores@affirm.com" "dolores" "Dolores" "Abernathy" [].

Definition stub_send_alert (s : Stub) (service : Service) (users : list User)
    : res unit * State Stub :=
  send_alert stub_handle stub_urljoin stub_check_url stub_profile_url
    "https://jenkins.example.com/" 10 service users [] (initial s).

(** ** Definitions of the specification

    The closed status set and the transition table as the specification
    words them, and the character-wise reading of the escaping. *)

(** The closed set of statuses and their values in [Service]. *)
Inductive Status : Type := PASSING | WARNING | ERROR | CRITICAL | ACKED.

Definition status_value (s : Status) : string :=
  match s with
  | PASSING => PASSING_STATUS
  | WARNING => WARNING_STATUS
  | ERROR => ERROR_STATUS
  | CRITICAL => CRITICAL_STATUS
  | ACKED => ACKED_STATUS
  end.

(** The transition table of the specification, first matching rule wins. *)
Definition transition_table (previous current : Status) : Decision :=
  match previous, current with
  | _, WARNING => SEND_SILENT
  | ERROR, ERROR => SEND_SILENT
  | _, ERROR => SEND_WITH_MENTIONS
  | ACKED, PASSING => SUPPRESS
  | WARNING, PASSING => SEND_SILENT
  | _, PASSING => SEND_WITH_MENTIONS
  | ACKED, ACKED => SUPPRESS
  | PASSING, ACKED => SUPPRESS
  | _, ACKED => SEND_SILENT
  | _, CRITICAL => SEND_WITH_MENTIONS
  end.

(** Every occurrence of [c] gets one backslash in front, every other
    character stays. *)
Fixpoint escape_each (c : ascii) (s : string) : string :=
  match s with
  | EmptyString => EmptyString
  | String a s' =>
      if Ascii.eqb a c then backslash +:+ String c (escape_each c s')
      else String a (escape_each c s')
  end.

(** The number of occurrences of [c] in [s]. *)
Fixpoint occurrences (c : ascii) (s : string) : nat :=
  match s with
  | EmptyString => 0
  | String a s' => (if Ascii.eqb a c then 1 else 0) + occurrences c s'
  end.

(** [check.last_result().error], [None] without a last result. *)
Definition last_error (check : Check) : option string :=
  last_result check ≫= error.


(** *** Paginated member listings *)

(** The cursor that a decoded page body announces: none when the body has
    no [response_metadata] or the metadata has no [next_cursor]. *)
Inductive page_cursor (o : dict) : json -> Prop :=
| cursor_no_metadata :
    dict_lookup "response_metadata" o = None -> page_cursor o JNull
| cursor_no_field m :
    dict_lookup "response_metadata" o = Some (JObj m) ->
    dict_lookup "next_cursor" m = None -> page_cursor o JNull
| cursor_field m c :
    dict_lookup "response_metadata" o = Some (JObj m) ->
    dict_lookup "next_cursor" m = Some c -> page_cursor o c.

(** A response is a page with the members [ids] and the cursor [c]. *)
Definition is_page (response : Response) (ids : list string) (c : json) : Prop :=
  200 <= status_code response < 300 ∧
  ∃ o, json_body response = Some (JObj o) ∧
       dict_lookup "ok" o = Some (JBool true) ∧
       dict_lookup "members" o = Some (JArr (JStr <$> ids)) ∧
       page_cursor o c.

Section Listing.

Context {Server : Type}.
Variable handle : Server -> Request -> Response * Server.
Variable urljoin : string -> string -> string.

Definition members_request (url : string) (headers : dict) (params : dict) : Request :=
  mkRequest GET (urljoin url "conversations.members") headers (Params params).

(** [listing url headers srv params n ids srv']: asked with [params], the
    server in state [srv] serves a listing of [n] pages whose members are
    [ids], each page but the last announcing the cursor of the next, and
    ends in state [srv']. *)
Inductive listing (url : string) (headers : dict)
  : Server -> dict -> nat -> list string -> Server -> Prop :=
| listing_last srv params response srv' ids c :
    handle srv (members_request url headers params) = (response, srv') ->
    is_page response ids c ->
    py_truthy c = false ->
    listing url headers srv params 1 ids srv'
| listing_more srv params response srv' ids c n ids' srv'' :
    handle srv (members_request url headers params) = (response, srv') ->
    is_page response ids c ->
    py_truthy c = true ->
    listing url headers srv' (dict_set "cursor" c params) n ids' srv'' ->
    listing url headers srv params (S n) (ids ++ ids') srv''.

End Listing.

(** *** The run of [send_alert] up to the post *)

(** The state with one more log entry. *)
Definition logged {Server} (st : State Server) (entry : LogEntry) : State Server :=
  mkState (srv st) (trace st) (logs st ++ [entry]).

(** A computation from which no [HTTPError] and no [SlackAPIError] escapes. *)
Definition contained {Server A} (m : M Server A) : Prop :=
  ∀ st e st', m st = (Raise e, st') -> http_or_api e = false.

(** The failing checks that have an image, with their images, in order. *)
Definition with_image (checks : list Check) : list (Check * string) :=
  omap (fun check => pair check <$> status_image check) checks.

Section Run.

Context {Server : Type}.
Variable handle : Server -> Request -> Response * Server.
Variable urljoin : string -> string -> string.
Variable check_url : Z -> string.
Variable profile_url : Z -> string.
Variable JENKINS_API : string.

(** The request of [_upload_file] for the image of a check, as a reply to
    the message [ts]. *)
Definition upload_request (url : string) (headers : dict) (channel_id : string)
    (ts : json) (upload : Check * string) : Request :=
  mkRequest POST (urljoin url "files.upload") headers
    (Multipart [("filename", JStr (check_name upload.1 +:+ ".png"));
                ("channels", JStr channel_id);
                ("thread_ts", ts)]
               [("file", upload.2)]
               30).

(** The request of [_ensure_channel_members] that invites [ids]. *)
Definition invite_request (url : string) (headers : dict) (channel_id : string)
    (ids : list string) : Request :=
  mkRequest POST (urljoin url "conversations.invite") headers
    (JsonBody [("channel", JStr channel_id); ("users", JStr (str_join "," ids))]).

(** [reaches_post ... st url headers channel_id blocks st3]: from [st], the
    policy lets [send_alert] proceed, the service is configured, and the
    join, resolution and membership steps return; the post is then issued
    in state [st3] with the message [blocks]. *)
Definition reaches_post (fuel : nat) (service : Service)
    (users duty_officers : list User) (st : State Server)
    (url : string) (headers : dict) (channel_id : string)
    (blocks : list dict) (st3 : State Server) : Prop :=
  ∃ include_mentions st1 st2 user_ids missing_users,
    mention_policy (overall_status service) (old_overall_status service) =
      Some include_mentions ∧
    _get_slack_api_for_service urljoin service = Ok (url, headers, channel_id) ∧
    join_step handle urljoin url headers channel_id st = (Ok tt, st1) ∧
    resolve_users handle urljoin url headers (users ++ duty_officers) [] [] st1 =
      (Ok (user_ids, missing_users), st2) ∧
    members_step handle urljoin fuel url headers channel_id user_ids st2 = (Ok tt, st3) ∧
    blocks = compose_blocks urljoin check_url profile_url JENKINS_API service
               (all_failing_checks service) include_mentions user_ids missing_users.

(** The fallback text of the post. *)
Definition post_text (service : Service) : string :=
  service_name service +:+ " is " +:+ overall_status service.

(** The log entries of the dispatcher. *)
Definition join_warning (channel_id : string) (e : exn) : LogEntry :=
  mkLogEntry LogWarning "Could not join channel %s: %s." [ArgStr channel_id; ArgExn e].

Definition lookup_error (user : User) (error_type : json) : LogEntry :=
  mkLogEntry LogException
    "Failed to find Slack user for Cabot user %s, got unexpected error %s."
    [ArgUser user; ArgJson error_type].

Definition members_error (channel_id : string) (e : exn) : LogEntry :=
  mkLogEntry LogException "Failed to add users to channel %s: %s"
    [ArgStr channel_id; ArgExn e].

Definition post_error (channel_id : string) (e : exn) : LogEntry :=
  mkLogEntry LogException "Error posting message to Slack channel %s: %s"
    [ArgStr channel_id; ArgExn e].

Definition upload_error (channel_id : string) (e : exn) : LogEntry :=
  mkLogEntry LogException "Failed to get/upload images to channel ID %s: %s"
    [ArgStr channel_id; ArgExn e].

End Run.

(** *** Concrete servers and inputs *)

Definition api_url : string := "https://slack.com/api/".
Definition api_headers : dict := [("Authorization", JStr "Bearer SOME-TOKEN")].

Definition members_page (ids : list string) (cursor : option string) : Response :=
  ok_response
    (("members", JArr (JStr <$> ids)) ::
     match cursor with
     | Some c => [("response_metadata", JObj [("next_cursor", JStr c)])]
     | None => []
     end).

(** A channel whose listing has two pages; the last one sends an empty
    cursor. *)
Definition two_page_stub : Stub :=
  mkStub (join_response happy_stub) (lookup_response happy_stub)
         [members_page ["U1"] (Some "dXNlcjpVMg=="); members_page ["U2"] (Some "")]
         (invite_response happy_stub) (post_response happy_stub)
         (upload_response happy_stub).

(** A channel that already has the one user to invite. *)
Definition reconciled_stub : Stub :=
  mkStub (join_response happy_stub) (lookup_response happy_stub)
         [members_page ["U1"] None]
         (invite_response happy_stub) (post_response happy_stub)
         (upload_response happy_stub).

(** A server whose e-mail lookup answers 500. *)
Definition lookup_down_stub : Stub :=
  mkStub (join_response happy_stub)
         (fun _ => status_response 500 "500 Server Error" "upstream timeout")
         (member_pages happy_stub)
         (invite_response happy_stub) (post_response happy_stub)
         (upload_response happy_stub).

(** A private channel: the join is refused for the channel type. *)
Definition private_channel_stub : Stub :=
  mkStub (error_response "method_not_supported_for_channel_type")
         (lookup_response happy_stub) (member_pages happy_stub)
         (invite_response happy_stub) (post_response happy_stub)
         (upload_response happy_stub).

(** A server that refuses the post. *)
Definition post_refused_stub : Stub :=
  mkStub (join_response happy_stub) (lookup_response happy_stub)
         (member_pages happy_stub) (invite_response happy_stub)
         (error_response "channel_not_found")
         (upload_response happy_stub).

(** A server that refuses the uploads. *)
Definition upload_refused_stub : Stub :=
  mkStub (join_response happy_stub) (lookup_response happy_stub)
         (member_pages happy_stub) (invite_response happy_stub)
         (post_response happy_stub)
         (error_response "file_uploads_disabled").

Definition second_user : User :=
  mkUser 2 "bernard@affirm.com" "bernard" "" "" [].

Definition overridden_user : User :=
  mkUser 3 "teddy@affirm.com" "teddy" "Teddy" "Flood" [""; "U123"].

(** Seven failing checks; the second and the seventh have an image. *)
Definition image_check (pk : Z) (name : string) (image : option string) : Check :=
  mkCheck pk name None None false "Metric Check" image.

Definition seven_checks : list Check :=
  [ image_check 1 "c1" None; image_check 2 "c2" (Some "png2");
    image_check 3 "c3" None; image_check 4 "c4" None; image_check 5 "c5" None;
    image_check 6 "c6" None; image_check 7 "c7" (Some "png7") ].

(** The payloads of the requests of a trace. *)
Definition payloads (tr : list (Request * Response)) : list payload :=
  req_payload <$> tr.*1.

(** The payload of an upload is the only multipart one. *)
Definition is_upload (p : payload) : bool :=
  match p with
  | Multipart _ _ _ => true
  | _ => false
  end.

(** ** The rest of the module *)

(** [validate_slack_user_id(slack_id)] (lines 393-395): [Valid] when it
    returns, [ValidationError] with the message it raises. *)
Inductive validation : Type :=
| Valid
| ValidationError (message : string).

Definition validate_slack_user_id (slack_id : string) : validation :=
  if negb (String.prefix "U" slack_id || String.prefix "W" slack_id)
  then ValidationError "Slack user ID should start with a U or W"
  else Valid.

(** A user for whom [_cabot_user_to_slack_user_id] finds an override. *)
Definition has_override (user : User) : bool :=
  existsb str_truthy (slack_user_id_overrides user).

(** The channel that [_get_slack_api_for_service] settles on: the one of
    the service when it is set, else the default of the instance. *)
Definition effective_channel (service : Service) (inst : SlackInstance) : option string :=
  if opt_truthy (slack_channel_id service) then slack_channel_id service
  else default_channel_id inst.

(** The five status names. *)
Definition status_names : list string :=
  [PASSING_STATUS; WARNING_STATUS; ERROR_STATUS; CRITICAL_STATUS; ACKED_STATUS].



Section Requests.

Variable urljoin : string -> string -> string.

(** The requests of the remaining operations of the client. *)
Definition join_request (url : string) (headers : dict) (channel_id : string) : Request :=
  mkRequest POST (urljoin url "conversations.join") headers
    (JsonBody [("channel", JStr channel_id)]).

Definition lookup_request (url : string) (headers : dict) (address : string) : Request :=
  mkRequest GET (urljoin url "users.lookupByEmail") headers
    (Params [("email", JStr address)]).

Definition post_request (url : string) (headers : dict) (channel_id : string)
    (text : string) (blocks : list dict) : Request :=
  mkRequest POST (urljoin url "chat.postMessage") headers
    (JsonBody [("channel", JStr channel_id); ("text", JStr text);
               ("blocks", JArr (JObj <$> blocks))]).

(** The link of the button of a Jenkins check. *)
Definition jenkins_link (JENKINS_API : string) (check : Check) : string :=
  urljoin JENKINS_API "/" +:+ "job/" +:+ check_name check +:+ "/" +:+
  str_of_opt_int (last_result check ≫= job_number) +:+ "/console".

(** The button of a section block. *)
Definition button (label link : string) : json :=
  JObj [("type", JStr "button");
        ("text", JObj [("type", JStr "plain_text");
                       ("text", JStr label);
                       ("emoji", JBool false)]);
        ("url", JStr link);
        ("action_id", JStr "button-status")].

End Requests.

(** A server whose member listing never ends: every page announces a
    further one. *)
Definition endless_handle (s : unit) (req : Request) : Response * unit :=
  (members_page ["U1"] (Some "bmV4dA=="), s).

(** A service without Slack instance. *)
Definition unconfigured_service (old current : string) : Service :=
  mkService "Service" current old None (Some "C456") [].

(** A server whose post is answered without a timestamp. *)
Definition no_ts_stub : Stub :=
  mkStub (join_response happy_stub) (lookup_response happy_stub)
         (member_pages happy_stub) (invite_response happy_stub)
         (ok_response [])
         (upload_response happy_stub).

(** ** Outcomes as functions of the response *)

(** What [_upload_file] makes of the response to its request (lines
    195-196): the check, then [response.json()['file']]. *)
Definition upload_result (response : Response) : res json :=
  res_bind (_check_response response true) (fun _ =>
  res_bind (response_json response) (fun j =>
  py_getitem j "file")).



(** An upload that returned the file object. *)
Definition upload_succeeded (exchange : Request * Response) : Prop :=
  ∃ file, upload_result exchange.2 = Ok file.

(** [served handle srv tr srv']: the exchanges [tr] are the answers of the
    server to their requests, in order, starting in state [srv] and ending
    in state [srv']. *)
Inductive served {Server : Type} (handle : Server -> Request -> Response * Server)
  : Server -> list (Request * Response) -> Server -> Prop :=
| served_nil srv : served handle srv [] srv
| served_cons srv req tr srv' :
    served handle (handle srv req).2 tr srv' ->
    served handle srv ((req, (handle srv req).1) :: tr) srv'.

(** A server whose uploads are answered without the file object. *)
Definition no_file_stub : Stub :=
  mkStub (join_response happy_stub) (lookup_response happy_stub)
         (member_pages happy_stub) (invite_response happy_stub)
         (post_response happy_stub)
         (ok_response []).
(** * Properties *)

(** ** The response check *)

Lemma raise_for_status_failing (response : Response) :
  400 <= status_code response < 600 ->
  raise_for_status response = Raise (HTTPError (http_error_msg response)).
Proof.
  intros [Hlo Hhi]. unfold raise_for_status.
  apply Z.leb_le in Hlo. apply Z.ltb_lt in Hhi. by rewrite Hlo, Hhi.
Qed.

Lemma raise_for_status_passing (response : Response) :
  ¬ (400 <= status_code response < 600) ->
  raise_for_status response = Ok tt.
Proof.
  intros Hn. unfold raise_for_status.
  destruct (400 <=? status_code response) eqn:Hlo;
    destruct (status_code response <? 600) eqn:Hhi; try reflexivity.
  apply Z.leb_le in Hlo. apply Z.ltb_lt in Hhi. lia.
Qed.

(** What the check does with a decoded dictionary once the status passed. *)
Lemma check_response_envelope (response : Response) (o : dict) :
  ¬ (400 <= status_code response < 600) ->
  json_body response = Some (JObj o) ->
  _check_response response true =
    if py_truthy (default JNull (dict_lookup "ok" o)) then Ok tt
    else Raise (SlackAPIError
                  (default (JStr "<error field missing>") (dict_lookup "error" o))
                  (default JNull (dict_lookup "errors" o))).
Proof.
  intros Hst Hj. unfold _check_response, response_json.
  rewrite (raise_for_status_passing _ Hst), Hj. simpl.
  by destruct (py_truthy _).
Qed.

(** The check never runs out of fuel: it has no loop. *)
Lemma check_response_returns (response : Response) (check_ok : bool) :
  _check_response response check_ok ≠ OutOfFuel.
Proof.
  unfold _check_response, raise_for_status.
  destruct (_ && _); [done |]. destruct check_ok; [| done].
  unfold response_json. destruct (json_body response) as [j |]; [| done].
  simpl. destruct j; simpl; try done. by destruct (py_truthy _).
Qed.

(** C7 as stated fails: status 304 is not a 2xx status, yet the check of
    a 304 response with an [ok] envelope raises nothing. *)
Lemma check_response_304_passes :
  let response := mkResponse 304 "304 Not Modified" "" (Some (JObj [("ok", JBool true)])) in
  ¬ (200 <= status_code response < 300) ∧ _check_response response true = Ok tt.
Proof. split; [simpl; lia | reflexivity]. Qed.

(** C7, amended: a 4xx or 5xx status raises the transport error whose
    message is the library's message followed by the response body; a 2xx
    response whose decoded envelope has [ok = false] raises the API error
    that carries the envelope's [error] code and its [errors] list ([None]
    when the envelope has none). *)
Theorem check_response_errors (response : Response) :
  (∀ check_ok, 400 <= status_code response < 600 ->
     _check_response response check_ok =
       Raise (HTTPError (http_error_msg response +:+ ", response body: " +:+ text response)))
  ∧ (∀ o code, 200 <= status_code response < 300 ->
       json_body response = Some (JObj o) ->
       dict_lookup "ok" o = Some (JBool false) ->
       dict_lookup "error" o = Some code ->
       _check_response response true =
         Raise (SlackAPIError code (default JNull (dict_lookup "errors" o)))).
Proof.
  split.
  - intros check_ok Hst. unfold _check_response.
    by rewrite (raise_for_status_failing _ Hst).
  - intros o code Hst Hj Hok Herr.
    rewrite (check_response_envelope response o); [| lia | done].
    by rewrite Hok, Herr.
Qed.

Lemma check_response_errors_witness :
  _check_response (status_response 500 "500 Server Error" "busy") true =
    Raise (HTTPError "500 Server Error, response body: busy")
  ∧ _check_response (error_response "channel_not_found") true =
      Raise (SlackAPIError (JStr "channel_not_found") JNull).
Proof.
  split.
  - apply (proj1 (check_response_errors (status_response 500 "500 Server Error" "busy")) true).
    simpl; lia.
  - apply (proj2 (check_response_errors (error_response "channel_not_found"))
             [("ok", JBool false); ("error", JStr "channel_not_found")]
             (JStr "channel_not_found")); [simpl; lia | reflexivity ..].
Defined.

(** C10 as stated fails: a body without [ok] and without [error] that has
    an [errors] list raises an error whose detail list is that list, not
    [None]. *)
Lemma check_response_missing_error_keeps_errors :
  let o := [("errors", JArr [JStr "boom"])] in
  let response := mkResponse 200 "" "" (Some (JObj o)) in
  dict_lookup "ok" o = None ∧ dict_lookup "error" o = None ∧
  _check_response response true =
    Raise (SlackAPIError (JStr "<error field missing>") (JArr [JStr "boom"])) ∧
  JArr [JStr "boom"] ≠ JNull.
Proof. repeat split; done. Qed.

(** C10, amended: on a 2xx response whose decoded body has no [ok] field,
    or a falsy one, the check raises the API error as for [ok = false];
    without an [error] field its error type is the placeholder, and its
    detail list is the body's [errors] value, [None] when that field is
    absent too. *)
Theorem check_response_missing_ok (response : Response) (o : dict) :
  200 <= status_code response < 300 ->
  json_body response = Some (JObj o) ->
  (dict_lookup "ok" o = None ∨
   ∃ v, dict_lookup "ok" o = Some v ∧ py_truthy v = false) ->
  (∃ error_type, _check_response response true =
     Raise (SlackAPIError error_type (default JNull (dict_lookup "errors" o))))
  ∧ (dict_lookup "error" o = None ->
     _check_response response true =
       Raise (SlackAPIError (JStr "<error field missing>")
                (default JNull (dict_lookup "errors" o))))
  ∧ (dict_lookup "error" o = None -> dict_lookup "errors" o = None ->
     _check_response response true =
       Raise (SlackAPIError (JStr "<error field missing>") JNull)).
Proof.
  intros Hst Hj Hok.
  rewrite (check_response_envelope response o); [| lia | done].
  assert (py_truthy (default JNull (dict_lookup "ok" o)) = false) as ->.
  { destruct Hok as [-> | (v & -> & Hv)]; done. }
  split; [eauto |]. split.
  - by intros ->.
  - by intros -> ->.
Qed.

Lemma check_response_missing_ok_witness :
  _check_response (mkResponse 200 "" "" (Some (JObj []))) true =
    Raise (SlackAPIError (JStr "<error field missing>") JNull).
Proof.
  apply (check_response_missing_ok (mkResponse 200 "" "" (Some (JObj []))) []);
    [simpl; lia | reflexivity | by left | reflexivity | reflexivity].
Defined.

(** ** The notification policy *)

(** C1: on each of the 25 pairs of statuses the decision that [send_alert]
    takes is the one of the transition table. *)
Theorem decide_alert_table (previous current : Status) :
  decide_alert (status_value previous) (status_value current) =
    transition_table previous current.
Proof. destruct previous, current; reflexivity. Qed.

(** The suppressed pairs are the three the specification names. *)
Lemma decide_alert_suppress (previous current : Status) :
  decide_alert (status_value previous) (status_value current) = SUPPRESS <->
  (previous, current) ∈ [(ACKED, PASSING); (ACKED, ACKED); (PASSING, ACKED)].
Proof.
  split.
  - destruct previous, current; vm_compute; intros H; try discriminate H;
      repeat (first [apply list_elem_of_here | apply list_elem_of_further]).
  - intros H. repeat (apply elem_of_cons in H as [H | H]; [by inversion H |]).
    by apply elem_of_nil in H.
Qed.

(** ** Escaping in the section blocks *)

Lemma replace_from_char (c : ascii) (s : string) (fuel : nat) :
  (String.length s <= fuel)%nat ->
  replace_from fuel (String c EmptyString) (backslash +:+ String c EmptyString) s =
    escape_each c s.
Proof.
  revert fuel. induction s as [| a s IH]; intros fuel Hlen.
  - by destruct fuel.
  - destruct fuel as [| fuel]; [simpl in Hlen; lia |].
    simpl in Hlen. cbn [replace_from escape_each String.prefix].
    destruct (ascii_dec c a) as [<- | Hne].
    + rewrite Ascii.eqb_refl.
      assert (String.prefix EmptyString s = true) as -> by by destruct s.
      cbn [String.length str_drop]. by rewrite IH by lia.
    + assert (Ascii.eqb a c = false) as ->.
      { apply Ascii.eqb_neq. congruence. }
      by rewrite IH by lia.
Qed.

Lemma py_replace_char (c : ascii) (s : string) :
  py_replace (String c EmptyString) (backslash +:+ String c EmptyString) s =
    escape_each c s.
Proof. unfold py_replace. by apply replace_from_char. Qed.

(** The escaping adds one character per occurrence of [c]. *)
Lemma escape_each_length (c : ascii) (s : string) :
  String.length (escape_each c s) = (String.length s + occurrences c s)%nat.
Proof.
  induction s as [| a s IH]; [done |]. simpl.
  destruct (Ascii.eqb a c); simpl; rewrite IH; lia.
Qed.

Section Composition.

Variable urljoin : string -> string -> string.
Variable check_url : Z -> string.
Variable JENKINS_API : string.

Lemma escaped_error_each (e : option string) :
  escaped_error e = escape_each "`"%char (default "" e).
Proof.
  destruct e as [e |]; [| done]. simpl.
  destruct e as [| a e]; [done |].
  unfold str_truthy. simpl negb. cbv iota. apply py_replace_char.
Qed.

(** C9: the markdown text of the section block of a failing check is the
    link markup around the check name, in which each [>] got one backslash,
    and the last error, in which each backtick got one backslash and which
    is empty when there is no error; no other character is changed. *)
Theorem section_block_escapes (check : Check) :
  dict_lookup "text" (check_block urljoin check_url JENKINS_API check) =
    Some (JObj [("type", JStr "mrkdwn");
                ("text", JStr ("*<" +:+ check_url (check_pk check) +:+ "|" +:+
                               escape_each ">"%char (check_name check) +:+
                               ">* - `" +:+
                               escape_each "`"%char (default "" (last_error check)) +:+
                               "`"))]).
Proof.
  assert (section_text check_url check =
            "*<" +:+ check_url (check_pk check) +:+ "|" +:+
            escape_each ">"%char (check_name check) +:+ ">* - `" +:+
            escape_each "`"%char (default "" (last_error check)) +:+ "`") as <-.
  { unfold section_text, escaped_name, last_error.
    rewrite escaped_error_each, py_replace_char.
    by destruct (last_result check). }
  unfold check_block.
  destruct (is_metrics_check check);
    [| destruct (String.eqb (check_category check) "Jenkins Check")].
  - destruct (status_link check) as [l |]; [destruct (str_truthy l) |]; reflexivity.
  - destruct (str_truthy _); reflexivity.
  - destruct (status_link check) as [l |]; [destruct (str_truthy l) |]; reflexivity.
Qed.

End Composition.

(** Two concrete renderings. *)
Example section_text_escaped :
  section_text stub_check_url
    (mkCheck 7 "a>b>" (Some (mkCheckResult (Some "x`y") None)) None false "" None) =
  "*<http://localhost/check/7/|a" +:+ backslash +:+ ">b" +:+ backslash +:+ ">>* - `x" +:+
  backslash +:+ "`y`".
Proof. vm_compute. reflexivity. Qed.

Example section_text_no_error :
  section_text stub_check_url test_check =
  "*<http://localhost/check/10104/|ES Metric Check>* - ``".
Proof. vm_compute. reflexivity. Qed.

(** ** The dispatcher and the Chat API client *)

(** Unfolding of the monad's operations. *)
Ltac unfold_monad :=
  unfold mbind, mret, M_bind, M_ret, lift, raise, out_of_fuel, log, try_except in *.

Lemma as_str_list_aux_strings (ids : list string) :
  as_str_list_aux (JStr <$> ids) = Ok ids.
Proof.
  induction ids as [| i ids IH]; [done |].
  rewrite fmap_cons. cbn [as_str_list_aux as_str res_bind]. by rewrite IH.
Qed.

Lemma page_cursor_next (o : dict) (c : json) :
  page_cursor o c -> next_cursor (JObj o) = Ok c.
Proof.
  unfold next_cursor. intros [Hm | m Hm Hc | m c' Hm Hc]; simpl; rewrite Hm; simpl;
    [done | by rewrite Hc | by rewrite Hc].
Qed.

Lemma is_page_check (response : Response) (ids : list string) (c : json) :
  is_page response ids c ->
  ∃ o, _check_response response true = Ok tt ∧
       response_json response = Ok (JObj o) ∧
       py_getitem (JObj o) "members" = Ok (JArr (JStr <$> ids)) ∧
       next_cursor (JObj o) = Ok c.
Proof.
  intros (Hst & o & Hj & Hok & Hmem & Hc). exists o.
  split; [| split; [| split]].
  - rewrite (check_response_envelope response o); [| lia | done]. by rewrite Hok.
  - unfold response_json. by rewrite Hj.
  - simpl. by rewrite Hmem.
  - by apply page_cursor_next.
Qed.

Section Dispatch.

Context {Server : Type}.
Variable handle : Server -> Request -> Response * Server.
Variable urljoin : string -> string -> string.
Variable check_url : Z -> string.
Variable profile_url : Z -> string.
Variable JENKINS_API : string.

(** One turn of the listing loop on a page. *)
Lemma members_loop_page fuel url headers params user_ids st response srv' ids c :
  handle (srv st) (members_request urljoin url headers params) = (response, srv') ->
  is_page response ids c ->
  members_loop handle urljoin (S fuel) url headers params user_ids st =
    (if negb (py_truthy c) then mret (user_ids ++ ids)
     else members_loop handle urljoin fuel url headers
            (dict_set "cursor" c params) (user_ids ++ ids))
      (mkState srv' (trace st ++ [(members_request urljoin url headers params, response)])
               (logs st)).
Proof.
  intros Hh Hp. destruct (is_page_check _ _ _ Hp) as (o & Hck & Hj & Hmem & Hc).
  cbn [members_loop]. unfold_monad. unfold http.
  unfold members_request in Hh. rewrite Hh. cbn [srv trace logs].
  rewrite Hck, Hj, Hmem. cbn [as_str_list]. rewrite as_str_list_aux_strings, Hc.
  reflexivity.
Qed.

Lemma members_loop_listing url headers srv0 params n ids srv' :
  listing handle urljoin url headers srv0 params n ids srv' ->
  ∀ fuel user_ids tr0 lg, (n <= fuel)%nat ->
    ∃ tr, members_loop handle urljoin fuel url headers params user_ids
            (mkState srv0 tr0 lg) =
            (Ok (user_ids ++ ids), mkState srv' (tr0 ++ tr) lg)
          ∧ length tr = n.
Proof.
  induction 1 as [srv0 params response srv' ids c Hh Hp Hc
                 | srv0 params response srv' ids c n ids' srv'' Hh Hp Hc Hl IH];
    intros fuel user_ids tr0 lg Hfuel.
  - destruct fuel as [| fuel]; [lia |].
    rewrite (members_loop_page fuel url headers params user_ids
               (mkState srv0 tr0 lg) response srv' ids c Hh Hp).
    rewrite Hc. eexists. split; [reflexivity | done].
  - destruct fuel as [| fuel]; [lia |].
    rewrite (members_loop_page fuel url headers params user_ids
               (mkState srv0 tr0 lg) response srv' ids c Hh Hp).
    rewrite Hc. cbn [negb trace logs].
    destruct (IH fuel (user_ids ++ ids)
                (tr0 ++ [(members_request urljoin url headers params, response)]) lg)
      as (tr & Heq & Hlen); [lia |].
    rewrite Heq. eexists (_ :: tr). split.
    + by rewrite <- !(assoc_L (++)).
    + simpl. by rewrite Hlen.
Qed.

(** The listing loop on a listing of [n] pages. *)
Lemma get_channel_members_listing url headers channel_id n ids srv' st fuel :
  listing handle urljoin url headers (srv st) [("channel", JStr channel_id)] n ids srv' ->
  (n <= fuel)%nat ->
  ∃ tr, _get_channel_members handle urljoin fuel url headers channel_id st =
          (Ok (list_to_set ids), mkState srv' (trace st ++ tr) (logs st))
        ∧ length tr = n.
Proof.
  destruct st as [srv0 tr0 lg]. cbn [srv trace logs]. intros Hl Hfuel.
  destruct (members_loop_listing _ _ _ _ _ _ _ Hl fuel [] tr0 lg Hfuel)
    as (tr & Heq & Hlen).
  exists tr. unfold _get_channel_members. unfold_monad. by rewrite Heq.
Qed.

(** The three ways in which a page announces no further page. *)
Lemma next_cursor_falsy (o : dict) :
  dict_lookup "response_metadata" o = None ∨
  (∃ m, dict_lookup "response_metadata" o = Some (JObj m) ∧
        (dict_lookup "next_cursor" m = None ∨
         dict_lookup "next_cursor" m = Some (JStr ""))) ->
  ∃ c, next_cursor (JObj o) = Ok c ∧ py_truthy c = false.
Proof.
  intros [Hm | (m & Hm & [Hc | Hc])]; unfold next_cursor; simpl; rewrite Hm; simpl.
  - by exists JNull.
  - rewrite Hc. by exists JNull.
  - rewrite Hc. by exists (JStr "").
Qed.

(** C5: when the server serves a listing of [n] pages, the listing loop of
    [_get_channel_members] returns the set of all their members after [n]
    requests (so within [n + 1]), given any fuel of at least [n]; and a
    page whose body has no [response_metadata], whose metadata has no
    [next_cursor], or whose [next_cursor] is the empty string announces a
    falsy cursor, which ends the loop. *)
Theorem get_channel_members_terminates url headers channel_id :
  (∀ n ids srv' st fuel,
     listing handle urljoin url headers (srv st) [("channel", JStr channel_id)] n ids srv' ->
     (n <= fuel)%nat ->
     ∃ tr, _get_channel_members handle urljoin fuel url headers channel_id st =
             (Ok (list_to_set ids), mkState srv' (trace st ++ tr) (logs st))
           ∧ length tr = n ∧ (length tr <= n + 1)%nat)
  ∧ (∀ o, dict_lookup "response_metadata" o = None ∨
          (∃ m, dict_lookup "response_metadata" o = Some (JObj m) ∧
                (dict_lookup "next_cursor" m = None ∨
                 dict_lookup "next_cursor" m = Some (JStr ""))) ->
          ∃ c, next_cursor (JObj o) = Ok c ∧ py_truthy c = false).
Proof.
  split.
  - intros n ids srv' st fuel Hl Hfuel.
    destruct (get_channel_members_listing _ _ _ _ _ _ _ _ Hl Hfuel) as (tr & Heq & Hlen).
    exists tr. split; [done | lia].
  - apply next_cursor_falsy.
Qed.

#[local] Abbreviation send_alert' :=
  (send_alert handle urljoin check_url profile_url JENKINS_API).

(** C2: when the decision is to suppress, [send_alert] returns at once and
    leaves the state as it is: no request is added to the trace and no
    entry to the log. *)
Theorem send_alert_suppressed fuel service users duty_officers (st : State Server) :
  decide_alert (old_overall_status service) (overall_status service) = SUPPRESS ->
  send_alert' fuel service users duty_officers st = (Ok tt, st).
Proof.
  unfold decide_alert, send_alert. intros H.
  destruct (mention_policy _ _) as [[|] |]; [discriminate H .. | reflexivity].
Qed.

(** *** Membership reconciliation *)

(** With no user to invite, [_ensure_channel_members] calls nothing. *)
Lemma ensure_channel_members_nil fuel url headers channel_id (st : State Server) :
  _ensure_channel_members handle urljoin fuel url headers channel_id [] st = (Ok tt, st).
Proof. reflexivity. Qed.

(** With users to invite and a listing that ends, exactly one invite
    request follows the listing, and it carries the comma-joined elements
    of the difference, whether or not there is any. *)
Lemma ensure_channel_members_invites fuel url headers channel_id user_ids
    n ids srv1 response srv2 (st : State Server) :
  user_ids ≠ [] ->
  listing handle urljoin url headers (srv st) [("channel", JStr channel_id)] n ids srv1 ->
  (n <= fuel)%nat ->
  handle srv1 (invite_request urljoin url headers channel_id
                 (elements ((list_to_set user_ids : gset string) ∖ list_to_set ids))) =
    (response, srv2) ->
  ∃ tr, length tr = n ∧
    _ensure_channel_members handle urljoin fuel url headers channel_id user_ids st =
      (_check_response response true,
       mkState srv2
         (trace st ++ tr ++
          [(invite_request urljoin url headers channel_id
              (elements ((list_to_set user_ids : gset string) ∖ list_to_set ids)),
            response)])
         (logs st)).
Proof.
  intros Hne Hl Hfuel Hinv.
  destruct (get_channel_members_listing _ _ _ _ _ _ _ _ Hl Hfuel) as (tr & Heq & Hlen).
  exists tr. split; [done |].
  unfold _ensure_channel_members.
  destruct user_ids as [| u user_ids]; [done |]. cbn [length Nat.eqb].
  unfold_monad. rewrite Heq. unfold http. cbn [srv trace logs].
  unfold invite_request in Hinv. rewrite Hinv.
  rewrite <- (assoc_L (++)). by destruct (_check_response response true).
Qed.

(** The invited identifiers are those of the difference, each once. *)
Lemma invited_ids_difference (user_ids ids : list string) (x : string) :
  x ∈ elements ((list_to_set user_ids : gset string) ∖ list_to_set ids) <->
  x ∈ user_ids ∧ x ∉ ids.
Proof. rewrite elem_of_elements. set_solver. Qed.

Lemma invited_ids_nodup (user_ids ids : list string) :
  NoDup (elements ((list_to_set user_ids : gset string) ∖ list_to_set ids)).
Proof. apply NoDup_elements. Qed.


(** *** Every operation of the client checks its response *)

Lemma http_run (req : Request) (st : State Server) :
  http handle req st =
    (Ok (handle (srv st) req).1,
     mkState (handle (srv st) req).2
       (trace st ++ [(req, (handle (srv st) req).1)]) (logs st)).
Proof. unfold http. by destruct (handle (srv st) req). Qed.

(** The state after the one exchange of [req]. *)
#[local] Abbreviation after req st :=
  (mkState (handle (srv st) req).2
     (trace st ++ [(req, (handle (srv st) req).1)]) (logs st)).

Lemma join_channel_checks url headers channel_id (st : State Server) :
  let req := mkRequest POST (urljoin url "conversations.join") headers
               (JsonBody [("channel", JStr channel_id)]) in
  _join_channel handle urljoin url headers channel_id st =
    (_check_response (handle (srv st) req).1 true, after req st).
Proof.
  intros req. unfold _join_channel. unfold_monad.
  fold req. by rewrite (http_run req st).
Qed.

Lemma email_lookup_checks url headers address e (st : State Server) :
  let req := mkRequest GET (urljoin url "users.lookupByEmail") headers
               (Params [("email", JStr address)]) in
  _check_response (handle (srv st) req).1 true = Raise e ->
  _email_to_slack_user_id handle urljoin url headers address st =
    (Raise e, after req st).
Proof.
  intros req Hck. unfold _email_to_slack_user_id. unfold_monad.
  fold req. by rewrite (http_run req st), Hck.
Qed.

Lemma members_loop_checks fuel url headers params user_ids e (st : State Server) :
  let req := members_request urljoin url headers params in
  _check_response (handle (srv st) req).1 true = Raise e ->
  members_loop handle urljoin (S fuel) url headers params user_ids st =
    (Raise e, after req st).
Proof.
  intros req Hck. cbn [members_loop]. unfold_monad.
  change (mkRequest GET _ _ _) with req. by rewrite (http_run req st), Hck.
Qed.

Lemma post_message_checks url headers text blocks channel_id e (st : State Server) :
  let req := mkRequest POST (urljoin url "chat.postMessage") headers
               (JsonBody [("channel", JStr channel_id); ("text", JStr text);
                          ("blocks", JArr (JObj <$> blocks))]) in
  _check_response (handle (srv st) req).1 true = Raise e ->
  _post_message handle urljoin url headers text blocks channel_id st =
    (Raise e, after req st).
Proof.
  intros req Hck. unfold _post_message. unfold_monad.
  fold req. by rewrite (http_run req st), Hck.
Qed.

Lemma upload_file_checks url headers channel_id ts check image e (st : State Server) :
  let req := upload_request urljoin url headers channel_id ts (check, image) in
  _check_response (handle (srv st) req).1 true = Raise e ->
  _upload_file handle urljoin url headers (check_name check +:+ ".png") image
    channel_id ts 30 st = (Raise e, after req st).
Proof.
  intros req Hck. unfold _upload_file. unfold_monad.
  change (mkRequest POST _ _ _) with req. by rewrite (http_run req st), Hck.
Qed.

(** *** The steps of [send_alert] *)

Lemma try_except_contained {A} (m : M Server A) (h : exn -> M Server A) :
  (∀ e, contained (h e)) -> contained (try_except m http_or_api h).
Proof.
  intros Hh st e st'. unfold try_except.
  destruct (m st) as [[a | e0 |] st0] eqn:Hm; try discriminate.
  destruct (http_or_api e0) eqn:He0.
  - apply Hh.
  - intros [= <- <-]. done.
Qed.

Lemma bind_contained {A B} (m : M Server A) (k : A -> M Server B) :
  contained m -> (∀ a, contained (k a)) -> contained (m ≫= k).
Proof.
  intros Hm Hk st e st'. unfold_monad.
  destruct (m st) as [[a | e0 |] st0] eqn:Hr; try discriminate.
  - apply Hk.
  - intros [= <- <-]. by eapply Hm.
Qed.

Lemma ret_contained {A} (a : A) : contained (mret a : M Server A).
Proof. intros st e st'. discriminate. Qed.

Lemma log_contained lvl fmt args : contained (log lvl fmt args : M Server unit).
Proof. intros st e st'. discriminate. Qed.

Lemma join_step_contained url headers channel_id :
  contained (join_step handle urljoin url headers channel_id).
Proof.
  apply try_except_contained. intros e.
  destruct (is_api_error _ e); [apply ret_contained | apply log_contained].
Qed.

Lemma members_step_contained fuel url headers channel_id user_ids :
  contained (members_step handle urljoin fuel url headers channel_id user_ids).
Proof. apply try_except_contained. intros e. apply log_contained. Qed.

Lemma upload_step_contained url headers channel_id ts checks :
  contained (upload_step handle urljoin url headers channel_id ts checks).
Proof. apply try_except_contained. intros e. apply log_contained. Qed.

Lemma resolve_users_contained url headers users user_ids missing_users :
  contained (resolve_users handle urljoin url headers users user_ids missing_users).
Proof.
  revert user_ids missing_users.
  induction users as [| user users IH]; intros user_ids missing_users.
  - apply ret_contained.
  - cbn [resolve_users]. apply bind_contained.
    + apply try_except_contained. intros e.
      destruct (negb (is_api_error "users_not_found" e)); [| apply ret_contained].
      apply bind_contained.
      * intros st e' st'. unfold lift. intros [= He <-].
        destruct e; simpl in He; try discriminate He; by inversion He.
      * intros error_type. apply bind_contained; [apply log_contained |].
        intros []. apply ret_contained.
    + intros [ids missing]. apply IH.
Qed.

(** A failed join is swallowed; it is logged unless the channel type does
    not support joining. *)
Lemma join_step_caught url headers channel_id e (st st1 : State Server) :
  _join_channel handle urljoin url headers channel_id st = (Raise e, st1) ->
  http_or_api e = true ->
  join_step handle urljoin url headers channel_id st =
    (Ok tt, if is_api_error "method_not_supported_for_channel_type" e then st1
            else logged st1 (join_warning channel_id e)).
Proof.
  intros Hj He. unfold join_step, try_except. rewrite Hj, He.
  by destruct (is_api_error _ e).
Qed.

Lemma members_step_caught fuel url headers channel_id user_ids e (st st1 : State Server) :
  _ensure_channel_members handle urljoin fuel url headers channel_id user_ids st =
    (Raise e, st1) ->
  http_or_api e = true ->
  members_step handle urljoin fuel url headers channel_id user_ids st =
    (Ok tt, logged st1 (members_error channel_id e)).
Proof. intros Hm He. unfold members_step, try_except. by rewrite Hm, He. Qed.

Lemma upload_step_caught url headers channel_id ts checks e (st st1 : State Server) :
  upload_loop handle urljoin url headers channel_id ts (take 5 checks) st = (Raise e, st1) ->
  http_or_api e = true ->
  upload_step handle urljoin url headers channel_id ts checks st =
    (Ok tt, logged st1 (upload_error channel_id e)).
Proof. intros Hu He. unfold upload_step, try_except. by rewrite Hu, He. Qed.

Lemma post_step_raises url headers text blocks channel_id e (st st1 : State Server) :
  _post_message handle urljoin url headers text blocks channel_id st = (Raise e, st1) ->
  http_or_api e = true ->
  post_step handle urljoin url headers text blocks channel_id st =
    (Raise e, logged st1 (post_error channel_id e)).
Proof. intros Hp He. unfold post_step, try_except. by rewrite Hp, He. Qed.

(** An exception of the two classes leaves [post_step] only as the logged
    failure of the post. *)
Lemma post_step_raised url headers text blocks channel_id e (st st' : State Server) :
  post_step handle urljoin url headers text blocks channel_id st = (Raise e, st') ->
  http_or_api e = true ->
  ∃ st1, _post_message handle urljoin url headers text blocks channel_id st = (Raise e, st1)
         ∧ st' = logged st1 (post_error channel_id e).
Proof.
  unfold post_step, try_except. intros Hp He.
  destruct (_post_message _ _ _ _ _ _ _ st) as [[ts | e0 |] st1]; try discriminate Hp.
  destruct (http_or_api e0) eqn:He0.
  - unfold_monad. injection Hp as <- <-. by exists st1.
  - injection Hp as <- <-. congruence.
Qed.

(** A recipient whose lookup fails with an API error is added to the
    missing users and the loop goes on; the failure is logged unless the
    error type is [users_not_found]. *)
Lemma resolve_users_api_error url headers user users user_ids missing_users
    error_type errors (st st1 : State Server) :
  _cabot_user_to_slack_user_id handle urljoin url headers user st =
    (Raise (SlackAPIError error_type errors), st1) ->
  resolve_users handle urljoin url headers (user :: users) user_ids missing_users st =
    resolve_users handle urljoin url headers users user_ids (missing_users ++ [user])
      (if py_eq_str error_type "users_not_found" then st1
       else logged st1 (lookup_error user error_type)).
Proof.
  intros Hu. cbn [resolve_users]. unfold_monad. rewrite Hu.
  cbn [http_or_api is_api_error exn_error_type].
  by destruct (py_eq_str error_type "users_not_found").
Qed.

(** A recipient whose lookup fails with a transport error ends the loop:
    the handler asks the [HTTPError] for an [error_type], which it has
    not. *)
Lemma resolve_users_http_error url headers user users user_ids missing_users
    message (st st1 : State Server) :
  _cabot_user_to_slack_user_id handle urljoin url headers user st =
    (Raise (HTTPError message), st1) ->
  resolve_users handle urljoin url headers (user :: users) user_ids missing_users st =
    (Raise (AttributeError "error_type"), st1).
Proof. intros Hu. cbn [resolve_users]. unfold_monad. by rewrite Hu. Qed.


(** *** The whole of [send_alert] *)

(** From the post on, [send_alert] is the post followed by the uploads. *)
Lemma send_alert_from_post fuel service users duty_officers st
    url headers channel_id blocks st3 :
  reaches_post handle urljoin check_url profile_url JENKINS_API
    fuel service users duty_officers st url headers channel_id blocks st3 ->
  send_alert' fuel service users duty_officers st =
    (ts ← post_step handle urljoin url headers (post_text service) blocks channel_id;
     upload_step handle urljoin url headers channel_id ts (all_failing_checks service)) st3.
Proof.
  intros (im & st1 & st2 & user_ids & missing_users & Hpol & Hapi & Hj & Hr & Hm & ->).
  unfold send_alert. rewrite Hpol. unfold_monad. rewrite Hapi, Hj, Hr, Hm.
  reflexivity.
Qed.

(** An [HTTPError] or [SlackAPIError] that leaves [send_alert] is the
    failure of the post, and it has been logged. *)
Lemma send_alert_raises_post_failure fuel service users duty_officers e
    (st st' : State Server) :
  send_alert' fuel service users duty_officers st = (Raise e, st') ->
  http_or_api e = true ->
  ∃ url headers channel_id blocks st3 st4,
    reaches_post handle urljoin check_url profile_url JENKINS_API
      fuel service users duty_officers st url headers channel_id blocks st3 ∧
    _post_message handle urljoin url headers (post_text service) blocks channel_id st3 =
      (Raise e, st4) ∧
    st' = logged st4 (post_error channel_id e).
Proof.
  intros Hs He. unfold send_alert in Hs.
  destruct (mention_policy _ _) as [im |] eqn:Hpol; [| discriminate Hs].
  unfold mbind, M_bind, lift in Hs.
  destruct (_get_slack_api_for_service urljoin service) as [[[url headers] channel_id] | e0 |] eqn:Hapi.
  2: { injection Hs as <- <-. unfold _get_slack_api_for_service in Hapi.
       repeat (case_match; try discriminate Hapi); by inversion Hapi; subst. }
  2: discriminate Hs.
  cbn beta iota in Hs.
  destruct (join_step _ _ _ _ _ st) as [[[] | e1 |] st1] eqn:Hj.
  2: { injection Hs as <- <-. pose proof (join_step_contained _ _ _ _ _ _ Hj). congruence. }
  2: discriminate Hs.
  destruct (resolve_users _ _ _ _ _ _ _ st1) as [[[user_ids missing_users] | e2 |] st2] eqn:Hr.
  2: { injection Hs as <- <-. pose proof (resolve_users_contained _ _ _ _ _ _ _ _ Hr). congruence. }
  2: discriminate Hs.
  destruct (members_step _ _ _ _ _ _ _ st2) as [[[] | e3 |] st3] eqn:Hm.
  2: { injection Hs as <- <-. pose proof (members_step_contained _ _ _ _ _ _ _ _ Hm). congruence. }
  2: discriminate Hs.
  destruct (post_step _ _ _ _ _ _ _ st3) as [[ts | e4 |] st4] eqn:Hp.
  - pose proof (upload_step_contained _ _ _ _ _ _ _ _ Hs). congruence.
  - injection Hs as <- <-.
    destruct (post_step_raised _ _ _ _ _ _ _ _ Hp He) as (st5 & Hpm & ->).
    eexists url, headers, channel_id, _, st3, st5. split; [| split; [exact Hpm | done]].
    exists im, st1, st2, user_ids, missing_users. done.
  - discriminate Hs.
Qed.


(** *** Image uploads *)

Lemma with_image_cons (check : Check) (checks : list Check) :
  with_image (check :: checks) =
    match status_image check with
    | Some image => (check, image) :: with_image checks
    | None => with_image checks
    end.
Proof. unfold with_image. simpl. by destruct (status_image check). Qed.

(** A member of [with_image (take 5 checks)] is one of the first five
    checks and has the image it is paired with. *)
Lemma with_image_first_five (checks : list Check) check image :
  (check, image) ∈ with_image (take 5 checks) ->
  status_image check = Some image ∧
  ∃ i, (i < 5)%nat ∧ checks !! i = Some check.
Proof.
  unfold with_image. rewrite list_elem_of_omap.
  intros (c & Hc & Himg).
  destruct (status_image c) as [img |] eqn:Hsi; [| discriminate Himg].
  simpl in Himg. injection Himg as <- <-. split; [done |].
  apply elem_of_take in Hc as (i & Hi & Hlt). eauto.
Qed.

(** One upload is one exchange, whatever its outcome. *)
Lemma upload_file_run url headers channel_id ts check image (st : State Server) :
  let req := upload_request urljoin url headers channel_id ts (check, image) in
  ∃ r, _upload_file handle urljoin url headers (check_name check +:+ ".png") image
         channel_id ts 30 st =
         (r, mkState (handle (srv st) req).2
               (trace st ++ [(req, (handle (srv st) req).1)]) (logs st))
       ∧ r ≠ OutOfFuel.
Proof.
  intros req. unfold _upload_file. unfold_monad.
  change (mkRequest POST _ _ _) with req. rewrite (http_run req st).
  generalize (handle (srv st) req).1 as response. intros response.
  destruct (_check_response response true) as [[] | e |] eqn:Hck.
  - destruct (response_json response) as [j | e |] eqn:Hj.
    + destruct (py_getitem j "file") as [f | e |] eqn:Hf; eexists; (split; [reflexivity |]);
        try done.
      unfold py_getitem in Hf. repeat case_match; discriminate Hf.
    + eexists; split; [reflexivity | done].
    + unfold response_json in Hj. case_match; discriminate Hj.
  - eexists; split; [reflexivity | done].
  - by apply check_response_returns in Hck.
Qed.

(** The loop uploads the images of a prefix of the checks that have one,
    in order, and of all of them when it returns. *)
Lemma upload_loop_trace url headers channel_id ts checks (st : State Server) :
  ∃ done tr r st',
    upload_loop handle urljoin url headers channel_id ts checks st = (r, st') ∧
    trace st' = trace st ++ tr ∧ logs st' = logs st ∧
    tr.*1 = upload_request urljoin url headers channel_id ts <$> done ∧
    done `prefix_of` with_image checks ∧
    (r = Ok tt -> done = with_image checks) ∧
    r ≠ OutOfFuel.
Proof.
  revert st. induction checks as [| check checks IH]; intros st.
  - exists [], [], (Ok tt), st. rewrite app_nil_r. by repeat split.
  - rewrite with_image_cons. cbn [upload_loop].
    destruct (status_image check) as [image |]; [| apply IH].
    destruct (upload_file_run url headers channel_id ts check image st) as (r0 & Hup & Hr0).
    unfold_monad. rewrite Hup. cbv zeta in *.
    set (req := upload_request urljoin url headers channel_id ts (check, image)) in *.
    destruct r0 as [f | e |].
    + destruct (IH (mkState (handle (srv st) req).2
                      (trace st ++ [(req, (handle (srv st) req).1)]) (logs st)))
        as (done & tr & r & st' & Hrun & Htr & Hlg & Hreq & Hpre & Hall & Hof).
      exists ((check, image) :: done), ((req, (handle (srv st) req).1) :: tr), r, st'.
      cbn [trace logs] in Htr, Hlg.
      repeat split; try done.
      * rewrite Htr. by rewrite <- (assoc_L (++)).
      * rewrite !fmap_cons. by rewrite Hreq.
      * by apply prefix_cons.
      * intros Hr. by rewrite Hall.
    + eexists [(check, image)], [(req, (handle (srv st) req).1)], (Raise e), _.
      split; [reflexivity |]. cbn [trace logs].
      repeat split; try done.
      apply prefix_cons, prefix_nil.
    + done.
Qed.


(** The server's answers compose. *)
Lemma served_one (srv0 : Server) (req : Request) :
  served handle srv0 [(req, (handle srv0 req).1)] (handle srv0 req).2.
Proof. apply served_cons, served_nil. Qed.

Lemma served_app (srv0 srv1 srv2 : Server) tr1 tr2 :
  served handle srv0 tr1 srv1 -> served handle srv1 tr2 srv2 ->
  served handle srv0 (tr1 ++ tr2) srv2.
Proof.
  induction 1 as [| srv0 req tr srv1 _ IH]; intros H2; [done |].
  simpl. apply served_cons. by apply IH.
Qed.

(** The outcome of an upload is [upload_result] of the server's answer. *)
Lemma upload_file_result url headers channel_id ts check image (st : State Server) :
  let req := upload_request urljoin url headers channel_id ts (check, image) in
  _upload_file handle urljoin url headers (check_name check +:+ ".png") image
    channel_id ts 30 st =
    (upload_result (handle (srv st) req).1,
     mkState (handle (srv st) req).2
       (trace st ++ [(req, (handle (srv st) req).1)]) (logs st)).
Proof.
  intros req. unfold _upload_file, upload_result. unfold_monad.
  change (mkRequest POST _ _ _) with req. rewrite (http_run req st).
  generalize (handle (srv st) req).1 as response. intros response.
  destruct (_check_response response true) as [[] | e |]; simpl; try done.
  by destruct (response_json response).
Qed.

Lemma upload_result_returns (response : Response) : upload_result response ≠ OutOfFuel.
Proof.
  unfold upload_result.
  destruct (_check_response response true) as [[] | e |] eqn:Hck; simpl; try done.
  - unfold response_json. destruct (json_body response) as [j |]; simpl; [| done].
    unfold py_getitem. by repeat case_match.
  - by apply check_response_returns in Hck.
Qed.

(** The upload loop in full: it uploads the images in order, each
    exchange being the server's answer, and either all uploads return and
    so does the loop, or the first upload that raises ends the loop with
    its exception. *)
Lemma upload_loop_run url headers channel_id ts checks (st : State Server) :
  ∃ done tr r st',
    upload_loop handle urljoin url headers channel_id ts checks st = (r, st') ∧
    trace st' = trace st ++ tr ∧ logs st' = logs st ∧
    served handle (srv st) tr (srv st') ∧
    tr.*1 = upload_request urljoin url headers channel_id ts <$> done ∧
    done `prefix_of` with_image checks ∧
    ((done = with_image checks ∧ Forall upload_succeeded tr ∧ r = Ok tt)
     ∨ (∃ tr0 req response e,
          tr = tr0 ++ [(req, response)] ∧ Forall upload_succeeded tr0 ∧
          upload_result response = Raise e ∧ r = Raise e)).
Proof.
  revert st. induction checks as [| check checks IH]; intros st.
  - exists [], [], (Ok tt), st. rewrite app_nil_r.
    split_and!; try done; [apply served_nil | left; by split_and!].
  - rewrite with_image_cons. cbn [upload_loop].
    destruct (status_image check) as [image |]; [| apply IH].
    unfold_monad. rewrite (upload_file_result url headers channel_id ts check image st).
    cbv zeta.
    set (req := upload_request urljoin url headers channel_id ts (check, image)).
    destruct (upload_result (handle (srv st) req).1) as [f | e |] eqn:Hres.
    + destruct (IH (mkState (handle (srv st) req).2
                      (trace st ++ [(req, (handle (srv st) req).1)]) (logs st)))
        as (done & tr & r & st' & Hrun & Htr & Hlg & Hsrv & Hreq & Hpre & Hcase).
      exists ((check, image) :: done), ((req, (handle (srv st) req).1) :: tr), r, st'.
      cbn [trace logs srv] in Htr, Hlg, Hsrv.
      split_and!; try done.
      * rewrite Htr. by rewrite <- (assoc_L (++)).
      * by apply served_cons.
      * rewrite !fmap_cons. by rewrite Hreq.
      * by apply prefix_cons.
      * destruct Hcase as [(-> & Hall & ->) | (tr0 & rq & rsp & e & -> & Hall & He & ->)].
        -- left. split_and!; try done. constructor; [by exists f | done].
        -- right. exists ((req, (handle (srv st) req).1) :: tr0), rq, rsp, e.
           split_and!; try done. constructor; [by exists f | done].
    + eexists [(check, image)], [(req, (handle (srv st) req).1)], (Raise e), _.
      split; [reflexivity |]. cbn [trace logs srv].
      split_and!; try done; [apply served_one | apply prefix_cons, prefix_nil |].
      right. exists [], req, (handle (srv st) req).1, e. by split_and!.
    + by apply upload_result_returns in Hres.
Qed.

(** C8, amended: once the post has returned the timestamp [ts], the
    requests that [send_alert] still issues are uploads, as replies to
    [ts], of the images of those among the first five failing checks that
    have an image, in the order of the list and up to the first upload
    that raises; no check beyond the fifth and no check without image is
    uploaded.  When an upload raises an [HTTPError] or a [SlackAPIError],
    the failure is logged and [send_alert] returns normally; when it raises
    anything else, [send_alert] ends with that exception and logs
    nothing. *)
Theorem send_alert_uploads fuel service users duty_officers (st : State Server)
    url headers channel_id blocks st3 ts st4 :
  reaches_post handle urljoin check_url profile_url JENKINS_API
    fuel service users duty_officers st url headers channel_id blocks st3 ->
  _post_message handle urljoin url headers (post_text service) blocks channel_id st3 =
    (Ok ts, st4) ->
  ∃ done tr r st',
    send_alert' fuel service users duty_officers st = (r, st') ∧
    trace st' = trace st4 ++ tr ∧
    served handle (srv st4) tr (srv st') ∧
    tr.*1 = upload_request urljoin url headers channel_id ts <$> done ∧
    (done `prefix_of` with_image (take 5 (all_failing_checks service))) ∧
    (∀ check image, (check, image) ∈ done ->
       status_image check = Some image ∧
       ∃ i, (i < 5)%nat ∧ all_failing_checks service !! i = Some check) ∧
    ((done = with_image (take 5 (all_failing_checks service)) ∧
      Forall upload_succeeded tr ∧ r = Ok tt ∧ logs st' = logs st4)
     ∨ (∃ tr0 req response e,
          tr = tr0 ++ [(req, response)] ∧ Forall upload_succeeded tr0 ∧
          upload_result response = Raise e ∧
          if http_or_api e
          then r = Ok tt ∧ logs st' = logs st4 ++ [upload_error channel_id e]
          else r = Raise e ∧ logs st' = logs st4)).
Proof.
  intros Hreach Hpost.
  rewrite (send_alert_from_post _ _ _ _ _ _ _ _ _ _ Hreach).
  unfold mbind, M_bind. unfold post_step at 1, try_except at 1. rewrite Hpost.
  destruct (upload_loop_run url headers channel_id ts
              (take 5 (all_failing_checks service)) st4)
    as (done & tr & r0 & st5 & Hrun & Htr & Hlg & Hsrv & Hreq & Hpre & Hcase).
  assert (∀ check image, (check, image) ∈ done ->
            status_image check = Some image ∧
            ∃ i, (i < 5)%nat ∧ all_failing_checks service !! i = Some check) as Hfive.
  { intros check image Hin. apply with_image_first_five.
    destruct Hpre as [k ->]. apply elem_of_app. by left. }
  unfold upload_step, try_except. rewrite Hrun.
  destruct Hcase as [(Hall & Hok & ->) | (tr0 & req & response & e & Htr0 & Hok & He & ->)].
  - exists done, tr, (Ok tt), st5. split_and!; try done. left. by split_and!.
  - destruct (http_or_api e) eqn:Hcls.
    + exists done, tr, (Ok tt), (logged st5 (upload_error channel_id e)).
      split_and!; try done. right. exists tr0, req, response, e.
      split_and!; try done. rewrite Hcls. cbn [logged logs]. by rewrite Hlg.
    + exists done, tr, (Raise e), st5. split_and!; try done.
      right. exists tr0, req, response, e. split_and!; try done. by rewrite Hcls.
Qed.

(** C6, amended: when the post fails with a transport or an API error,
    [send_alert] logs the failure and raises the same error; no other
    [HTTPError] or [SlackAPIError] ever leaves [send_alert].  A failure of
    the join, of the membership reconciliation or of the image upload with
    one of the two, and a failure of a recipient's resolution with an API
    error, is caught where it occurs and the send goes on; it is logged,
    except for a join refused with [method_not_supported_for_channel_type]
    and a lookup refused with [users_not_found], which leave no entry. *)
Theorem send_alert_failure_propagation fuel service users duty_officers
    (st : State Server) :
  (∀ url headers channel_id blocks st3 e st4,
     reaches_post handle urljoin check_url profile_url JENKINS_API
       fuel service users duty_officers st url headers channel_id blocks st3 ->
     _post_message handle urljoin url headers (post_text service) blocks channel_id st3 =
       (Raise e, st4) ->
     http_or_api e = true ->
     send_alert' fuel service users duty_officers st =
       (Raise e, logged st4 (post_error channel_id e)))
  ∧ (∀ e st',
       send_alert' fuel service users duty_officers st = (Raise e, st') ->
       http_or_api e = true ->
       ∃ url headers channel_id blocks st3 st4,
         reaches_post handle urljoin check_url profile_url JENKINS_API
           fuel service users duty_officers st url headers channel_id blocks st3 ∧
         _post_message handle urljoin url headers (post_text service) blocks
           channel_id st3 = (Raise e, st4) ∧
         st' = logged st4 (post_error channel_id e))
  ∧ (∀ url headers channel_id e (s s1 : State Server),
       _join_channel handle urljoin url headers channel_id s = (Raise e, s1) ->
       http_or_api e = true ->
       join_step handle urljoin url headers channel_id s =
         (Ok tt, if is_api_error "method_not_supported_for_channel_type" e then s1
                 else logged s1 (join_warning channel_id e)))
  ∧ (∀ url headers user rest user_ids missing_users error_type errors
       (s s1 : State Server),
       _cabot_user_to_slack_user_id handle urljoin url headers user s =
         (Raise (SlackAPIError error_type errors), s1) ->
       resolve_users handle urljoin url headers (user :: rest) user_ids missing_users s =
         resolve_users handle urljoin url headers rest user_ids (missing_users ++ [user])
           (if py_eq_str error_type "users_not_found" then s1
            else logged s1 (lookup_error user error_type)))
  ∧ (∀ url headers channel_id user_ids e (s s1 : State Server),
       _ensure_channel_members handle urljoin fuel url headers channel_id user_ids s =
         (Raise e, s1) ->
       http_or_api e = true ->
       members_step handle urljoin fuel url headers channel_id user_ids s =
         (Ok tt, logged s1 (members_error channel_id e)))
  ∧ (∀ url headers channel_id ts checks e (s s1 : State Server),
       upload_loop handle urljoin url headers channel_id ts (take 5 checks) s =
         (Raise e, s1) ->
       http_or_api e = true ->
       upload_step handle urljoin url headers channel_id ts checks s =
         (Ok tt, logged s1 (upload_error channel_id e))).
Proof.
  split_and!.
  - intros url headers channel_id blocks st3 e st4 Hreach Hpost He.
    rewrite (send_alert_from_post _ _ _ _ _ _ _ _ _ _ Hreach).
    unfold mbind, M_bind. by rewrite (post_step_raises _ _ _ _ _ _ _ _ Hpost He).
  - intros e st' Hs He. by apply send_alert_raises_post_failure.
  - intros. by apply join_step_caught.
  - intros. by eapply resolve_users_api_error.
  - intros. by apply members_step_caught.
  - intros. by apply upload_step_caught.
Qed.

End Dispatch.

(** ** Concrete runs *)

Lemma send_alert_suppressed_witness :
  stub_send_alert happy_stub (test_service "ACKED" "PASSING" [test_check]) [test_user] =
    (Ok tt, initial happy_stub).
Proof.
  unfold stub_send_alert. apply send_alert_suppressed. reflexivity.
Defined.

Lemma two_page_listing :
  listing stub_handle stub_urljoin api_url api_headers two_page_stub
    [("channel", JStr "C456")] 2 ["U1"; "U2"]
    (mkStub (join_response happy_stub) (lookup_response happy_stub) []
            (invite_response happy_stub) (post_response happy_stub)
            (upload_response happy_stub)).
Proof.
  change ["U1"; "U2"] with (["U1"] ++ ["U2"]).
  eapply listing_more with (c := JStr "dXNlcjpVMg==").
  - reflexivity.
  - split; [simpl; lia |]. eexists. split; [reflexivity |].
    split; [reflexivity |]. split; [reflexivity |].
    by eapply cursor_field.
  - reflexivity.
  - eapply listing_last with (c := JStr "").
    + reflexivity.
    + split; [simpl; lia |]. eexists. split; [reflexivity |].
      split; [reflexivity |]. split; [reflexivity |].
      by eapply cursor_field.
    + reflexivity.
Qed.

Lemma get_channel_members_terminates_witness :
  ∃ tr, _get_channel_members stub_handle stub_urljoin 2 api_url api_headers "C456"
          (initial two_page_stub) =
          (Ok (list_to_set ["U1"; "U2"]),
           mkState (mkStub (join_response happy_stub) (lookup_response happy_stub) []
                      (invite_response happy_stub) (post_response happy_stub)
                      (upload_response happy_stub))
                   ([] ++ tr) [])
        ∧ length tr = 2%nat ∧ (length tr <= 2 + 1)%nat.
Proof.
  apply (proj1 (get_channel_members_terminates stub_handle stub_urljoin
                  api_url api_headers "C456")
           2%nat ["U1"; "U2"] _ (initial two_page_stub) 2%nat).
  - exact two_page_listing.
  - lia.
Defined.

(** C3, the run that departs from it: the one user to invite is already
    in the channel, the difference is empty, and [_ensure_channel_members]
    still sends an invite request, with an empty [users] list. *)
Theorem ensure_channel_members_invites_nobody :
  ∃ st', _ensure_channel_members stub_handle stub_urljoin 10 api_url api_headers
           "C456" ["U1"] (initial reconciled_stub) = (Ok tt, st')
         ∧ payloads (trace st') =
             [Params [("channel", JStr "C456")];
              JsonBody [("channel", JStr "C456"); ("users", JStr "")]].
Proof. eexists. split; vm_compute; reflexivity. Qed.

(** C4, the run that departs from it: the lookup of the first recipient is
    answered with status 500; [send_alert] ends with an [AttributeError]
    before the second recipient is looked up and before anything is
    posted, and nothing is logged. *)
Theorem send_alert_lookup_transport_error :
  ∃ st', stub_send_alert lookup_down_stub (test_service "PASSING" "ERROR" [test_check])
           [test_user; second_user] = (Raise (AttributeError "error_type"), st')
         ∧ payloads (trace st') =
             [JsonBody [("channel", JStr "C456")];
              Params [("email", JStr "dolores@affirm.com")]]
         ∧ logs st' = [].
Proof. eexists. split; [| split]; vm_compute; reflexivity. Qed.

(** C6 as stated fails: a join refused for the channel type is caught but
    leaves no log entry. *)
Lemma join_not_supported_is_not_logged :
  (∃ st1, _join_channel stub_handle stub_urljoin api_url api_headers "C456"
            (initial private_channel_stub) =
            (Raise (SlackAPIError (JStr "method_not_supported_for_channel_type") JNull),
             st1))
  ∧ ∃ st', stub_send_alert private_channel_stub
             (test_service "PASSING" "ERROR" [test_check]) [test_user] = (Ok tt, st')
           ∧ logs st' = [].
Proof.
  split; eexists; [| split]; vm_compute; reflexivity.
Qed.

Lemma send_alert_failure_propagation_witness :
  ∃ st4, stub_send_alert post_refused_stub
           (test_service "PASSING" "ERROR" [test_check]) [test_user] =
           (Raise (SlackAPIError (JStr "channel_not_found") JNull),
            logged st4 (post_error "C456" (SlackAPIError (JStr "channel_not_found") JNull))).
Proof.
  eexists. unfold stub_send_alert.
  eapply (proj1 (send_alert_failure_propagation stub_handle stub_urljoin
                   stub_check_url stub_profile_url "https://jenkins.example.com/"
                   10 (test_service "PASSING" "ERROR" [test_check]) [test_user] []
                   (initial post_refused_stub))).
  - do 5 eexists. split_and!; vm_compute; reflexivity.
  - vm_compute; reflexivity.
  - reflexivity.
Defined.

Lemma send_alert_uploads_witness :
  ∃ st4 done tr r st',
    stub_send_alert upload_refused_stub
      (test_service "PASSING" "ERROR" seven_checks) [test_user] = (r, st') ∧
    trace st' = trace st4 ++ tr ∧
    served stub_handle (srv st4) tr (srv st') ∧
    tr.*1 = upload_request stub_urljoin api_url api_headers "C456"
              (JStr "1700000000.000100") <$> done ∧
    (done `prefix_of` with_image (take 5 seven_checks)) ∧
    (∀ check image, (check, image) ∈ done ->
       status_image check = Some image ∧
       ∃ i, (i < 5)%nat ∧ seven_checks !! i = Some check) ∧
    ((done = with_image (take 5 seven_checks) ∧
      Forall upload_succeeded tr ∧ r = Ok tt ∧ logs st' = logs st4)
     ∨ (∃ tr0 req response e,
          tr = tr0 ++ [(req, response)] ∧ Forall upload_succeeded tr0 ∧
          upload_result response = Raise e ∧
          if http_or_api e
          then r = Ok tt ∧ logs st' = logs st4 ++ [upload_error "C456" e]
          else r = Raise e ∧ logs st' = logs st4)).
Proof.
  eexists. unfold stub_send_alert.
  eapply (send_alert_uploads stub_handle stub_urljoin
            stub_check_url stub_profile_url "https://jenkins.example.com/"
            10 (test_service "PASSING" "ERROR" seven_checks) [test_user] []
            (initial upload_refused_stub)).
  - do 5 eexists. split_and!; vm_compute; reflexivity.
  - vm_compute; reflexivity.
Defined.

(** C8 as stated fails: an upload answered without the file object raises
    [KeyError], which is no failure that the step catches; [send_alert]
    ends with it after the post, and nothing is logged. *)
Lemma upload_without_file_escapes :
  upload_result (upload_response no_file_stub) = Raise (KeyError "file")
  ∧ ∃ st', stub_send_alert no_file_stub
             (test_service "PASSING" "WARNING" seven_checks) [] =
             (Raise (KeyError "file"), st')
           ∧ List.filter is_upload (payloads (trace st')) =
               [Multipart [("filename", JStr "c2.png"); ("channels", JStr "C456");
                           ("thread_ts", JStr "1700000000.000100")]
                          [("file", "png2")] 30]
           ∧ logs st' = [].
Proof.
  split; [reflexivity |]. eexists. split; [| split]; vm_compute; reflexivity.
Qed.

(** Of seven failing checks of which the second and the seventh have an
    image, only the second is uploaded, as a reply to the post. *)
Example seven_checks_one_upload :
  ∃ st', stub_send_alert happy_stub (test_service "PASSING" "WARNING" seven_checks) [] =
           (Ok tt, st')
         ∧ List.filter is_upload (payloads (trace st')) =
             [Multipart [("filename", JStr "c2.png"); ("channels", JStr "C456");
                         ("thread_ts", JStr "1700000000.000100")]
                        [("file", "png2")] 30]
         ∧ logs st' = [].
Proof. eexists. split; [| split]; vm_compute; reflexivity. Qed.

(** A refused upload is logged and the send still returns. *)
Example refused_upload_is_swallowed :
  ∃ st', stub_send_alert upload_refused_stub
           (test_service "PASSING" "WARNING" seven_checks) [] = (Ok tt, st')
         ∧ logs st' =
             [upload_error "C456" (SlackAPIError (JStr "file_uploads_disabled") JNull)].
Proof. eexists. split; vm_compute; reflexivity. Qed.

(** The first non-empty override is used without any lookup. *)
Example override_needs_no_lookup :
  _cabot_user_to_slack_user_id stub_handle stub_urljoin api_url api_headers
    overridden_user (initial lookup_down_stub) = (Ok "U123", initial lookup_down_stub).
Proof. reflexivity. Qed.

(** *** The scenarios of the repository's tests *)

(** [test_passing_to_error]: a header, the section of the failing check and
    the mentions of both recipients. *)
Example scenario_passing_to_error :
  ∃ st', stub_send_alert happy_stub (test_service "PASSING" "ERROR" [test_check])
           [mkUser 9 "renee@affirm.com" "renee" "RENEE" "S" ["U123"]; test_user] =
           (Ok tt, st')
         ∧ last (payloads (trace st')) =
             Some (JsonBody
               [("channel", JStr "C456");
                ("text", JStr "Service is ERROR");
                ("blocks",
                 JArr [JObj [("type", JStr "header");
                             ("text", JObj [("type", JStr "plain_text");
                                            ("text", JStr ":red_circle: Service status is ERROR :red_circle:")])];
                       JObj [("type", JStr "section");
                             ("text", JObj [("type", JStr "mrkdwn");
                                            ("text", JStr "*<http://localhost/check/10104/|ES Metric Check>* - ``")])];
                       JObj [("type", JStr "context");
                             ("elements",
                              JArr [JObj [("type", JStr "mrkdwn");
                                          ("text", JStr "<@U123> <@Udolores@affirm.com> :point_up:")]])]])]).
Proof. eexists. split; vm_compute; reflexivity. Qed.

(** [test_passing_to_warning] and [test_error_to_acked]: the header only,
    although the recipient resolves. *)
Example scenario_passing_to_warning :
  ∃ st', stub_send_alert happy_stub (test_service "PASSING" "WARNING" []) [test_user] =
           (Ok tt, st')
         ∧ last (payloads (trace st')) =
             Some (JsonBody
               [("channel", JStr "C456");
                ("text", JStr "Service is WARNING");
                ("blocks",
                 JArr [JObj [("type", JStr "header");
                             ("text", JObj [("type", JStr "plain_text");
                                            ("text", JStr ":large_yellow_circle: Service status is WARNING :large_yellow_circle:")])]])]).
Proof. eexists. split; vm_compute; reflexivity. Qed.

Example scenario_error_to_acked :
  ∃ st', stub_send_alert happy_stub (test_service "ERROR" "ACKED" []) [test_user] =
           (Ok tt, st')
         ∧ last (payloads (trace st')) =
             Some (JsonBody
               [("channel", JStr "C456");
                ("text", JStr "Service is ACKED");
                ("blocks",
                 JArr [JObj [("type", JStr "header");
                             ("text", JObj [("type", JStr "plain_text");
                                            ("text", JStr ":zipper_mouth_face: Service status is ACKED :zipper_mouth_face:")])]])]).
Proof. eexists. split; vm_compute; reflexivity. Qed.

(** A lookup refused with [users_not_found] leaves no log entry and the
    user is named in the block of missing users; any other API error is
    logged as well. *)
Example scenario_user_not_found :
  let s := mkStub (join_response happy_stub) (fun _ => error_response "users_not_found")
             (member_pages happy_stub) (invite_response happy_stub)
             (post_response happy_stub) (upload_response happy_stub) in
  ∃ st', stub_send_alert s (test_service "PASSING" "ERROR" []) [test_user] = (Ok tt, st')
         ∧ logs st' = []
         ∧ length (payloads (trace st')) = 3%nat.
Proof. eexists. split; [| split]; vm_compute; reflexivity. Qed.

Example scenario_lookup_refused :
  let s := mkStub (join_response happy_stub) (fun _ => error_response "ratelimited")
             (member_pages happy_stub) (invite_response happy_stub)
             (post_response happy_stub) (upload_response happy_stub) in
  ∃ st', stub_send_alert s (test_service "PASSING" "ERROR" []) [test_user] = (Ok tt, st')
         ∧ logs st' = [lookup_error test_user (JStr "ratelimited")].
Proof. eexists. split; vm_compute; reflexivity. Qed.

(** * Further properties of the module *)

(** ** Validation of user identifiers *)

(** An accepted identifier starts with [U] or [W]; the empty string and
    the [ignore] sentinel of the module are rejected. *)
Theorem validate_slack_user_id_accepts (slack_id : string) :
  (validate_slack_user_id slack_id = Valid <->
   ∃ rest, slack_id = "U" +:+ rest ∨ slack_id = "W" +:+ rest)
  ∧ validate_slack_user_id "" =
      ValidationError "Slack user ID should start with a U or W"
  ∧ validate_slack_user_id IGNORE_USER_ID =
      ValidationError "Slack user ID should start with a U or W".
Proof.
  split; [| by split].
  unfold validate_slack_user_id. split.
  - destruct slack_id as [| a s]; [discriminate |].
    cbn [String.prefix].
    destruct (ascii_dec "U" a) as [<- | HU]; [intros _; exists s; by left |].
    destruct (ascii_dec "W" a) as [<- | HW]; [intros _; exists s; by right |].
    discriminate.
  - intros [rest [-> | ->]]; simpl; by destruct rest.
Qed.

(** ** The policy on arbitrary status strings *)

Ltac case_status s :=
  repeat match goal with
         | |- context [String.eqb s ?k] =>
             destruct (String.eqb_spec s k); [subst s |]
         end.

(** [send_alert] returns early for exactly three transitions, whatever
    strings the two statuses are. *)
Theorem mention_policy_suppresses (current_status old_status : string) :
  mention_policy current_status old_status = None <->
  (current_status = PASSING_STATUS ∧ old_status = ACKED_STATUS) ∨
  (current_status = ACKED_STATUS ∧
   (old_status = ACKED_STATUS ∨ old_status = PASSING_STATUS)).
Proof.
  unfold mention_policy, PASSING_STATUS, ACKED_STATUS, WARNING_STATUS, ERROR_STATUS.
  split.
  - destruct (String.eqb_spec current_status "PASSING") as [-> | Hp].
    + cbn. destruct (String.eqb_spec old_status "ACKED") as [-> | Ha]; [by left |].
      cbn. by destruct (String.eqb old_status "WARNING").
    + cbn. destruct (String.eqb_spec current_status "ACKED") as [-> | Ha].
      * destruct (String.eqb_spec old_status "ACKED") as [-> | Hoa]; [right; by auto |].
        destruct (String.eqb_spec old_status "PASSING") as [-> | Hop]; [right; by auto |].
        discriminate.
      * by repeat case_match.
  - intros [[-> ->] | [-> [-> | ->]]]; reflexivity.
Qed.

(** A current status that is none of WARNING, ERROR, PASSING and ACKED
    (CRITICAL, or any string outside the status set) is sent with
    mentions whatever the previous status; and a previous status outside
    the status set is treated like CRITICAL. *)
Theorem mention_policy_open (current_status old_status : string) :
  (current_status ∉ [WARNING_STATUS; ERROR_STATUS; PASSING_STATUS; ACKED_STATUS] ->
   mention_policy current_status old_status = Some true)
  ∧ (old_status ∉ status_names ->
     mention_policy current_status old_status =
       mention_policy current_status CRITICAL_STATUS).
Proof.
  unfold status_names, WARNING_STATUS, ERROR_STATUS, PASSING_STATUS, ACKED_STATUS,
    CRITICAL_STATUS.
  split; intros Hn.
  - assert (∀ k, k ∈ ["WARNING"; "ERROR"; "PASSING"; "ACKED"] ->
              String.eqb current_status k = false) as Hk.
    { intros k Hin. apply String.eqb_neq. intros ->. by apply Hn. }
    unfold mention_policy, WARNING_STATUS, ERROR_STATUS, PASSING_STATUS, ACKED_STATUS.
    rewrite !Hk; [done | set_solver ..].
  - assert (∀ k, k ∈ ["PASSING"; "WARNING"; "ERROR"; "CRITICAL"; "ACKED"] ->
              String.eqb old_status k = false) as Hk.
    { intros k Hin. apply String.eqb_neq. intros ->. by apply Hn. }
    unfold mention_policy, WARNING_STATUS, ERROR_STATUS, PASSING_STATUS, ACKED_STATUS.
    rewrite !Hk; [| set_solver ..].
    change (String.eqb "CRITICAL" "ERROR") with false.
    change (String.eqb "CRITICAL" "ACKED") with false.
    change (String.eqb "CRITICAL" "WARNING") with false.
    change (String.eqb "CRITICAL" "PASSING") with false.
    by repeat case_match.
Qed.

Lemma mention_policy_open_witness :
  mention_policy "critical" "PASSING" = Some true
  ∧ mention_policy "ERROR" "UNKNOWN" = mention_policy "ERROR" "CRITICAL".
Proof.
  split.
  - apply (proj1 (mention_policy_open "critical" "PASSING")).
    intros H. repeat (apply elem_of_cons in H as [H | H]; [discriminate H |]).
    by apply elem_of_nil in H.
  - apply (proj2 (mention_policy_open "ERROR" "UNKNOWN")).
    intros H. repeat (apply elem_of_cons in H as [H | H]; [discriminate H |]).
    by apply elem_of_nil in H.
Defined.

(** ** The configuration of the service *)

(** [_get_slack_api_for_service] in full: without an instance it raises
    the first error, whatever the channel; with one, the channel of the
    service wins over the default of the instance, an empty channel of the
    service falls back to the default, and with no channel left it raises
    the second error. *)
Theorem get_slack_api_for_service_cases (urljoin : string -> string -> string)
    (service : Service) :
  match slack_instance service with
  | None =>
      _get_slack_api_for_service urljoin service =
        Raise (RuntimeError "Slack instance not set.")
  | Some inst =>
      match effective_channel service inst with
      | Some c =>
          if String.eqb c "" then
            _get_slack_api_for_service urljoin service =
              Raise (RuntimeError "Slack channel ID not set.")
          else
            _get_slack_api_for_service urljoin service =
              Ok (urljoin (server_url inst) "api/",
                  [("Authorization", JStr ("Bearer " +:+ access_token inst))], c)
      | None =>
          _get_slack_api_for_service urljoin service =
            Raise (RuntimeError "Slack channel ID not set.")
      end
  end.
Proof.
  unfold _get_slack_api_for_service, effective_channel.
  destruct (slack_instance service) as [inst |]; [| done].
  destruct (if opt_truthy _ then _ else _) as [c |]; [| done].
  unfold str_truthy. by destruct (String.eqb c "").
Qed.

(** The channel that is returned is never empty, it is the channel of the
    service whenever that one is set, and the default otherwise. *)
Theorem get_slack_api_for_service_channel (urljoin : string -> string -> string)
    (service : Service) url headers channel_id :
  _get_slack_api_for_service urljoin service = Ok (url, headers, channel_id) ->
  channel_id ≠ "" ∧
  ∃ inst, slack_instance service = Some inst ∧
    url = urljoin (server_url inst) "api/" ∧
    headers = [("Authorization", JStr ("Bearer " +:+ access_token inst))] ∧
    (∀ c, slack_channel_id service = Some c -> c ≠ "" -> channel_id = c) ∧
    (slack_channel_id service = None ∨ slack_channel_id service = Some "" ->
     default_channel_id inst = Some channel_id).
Proof.
  unfold _get_slack_api_for_service.
  destruct (slack_instance service) as [inst |]; [| discriminate].
  destruct (slack_channel_id service) as [c |] eqn:Hc; cbn [opt_truthy].
  - unfold str_truthy at 1.
    destruct (String.eqb_spec c "") as [-> | Hne]; cbn [negb].
    + destruct (default_channel_id inst) as [d |] eqn:Hdef; [| discriminate].
      unfold str_truthy. destruct (String.eqb_spec d "") as [-> | Hd]; [discriminate |].
      cbn [negb]. intros [= <- <- <-]. split; [done |].
      exists inst. split_and!; try done. by intros c' [= <-].
    + unfold str_truthy. destruct (String.eqb_spec c "") as [-> | _]; [done |].
      cbn [negb]. intros [= <- <- <-]. split; [done |].
      exists inst. split_and!; try done.
      * by intros c' [= <-].
      * intros [H | H]; [discriminate H | by injection H as ->].
  - destruct (default_channel_id inst) as [d |] eqn:Hdef; [| discriminate].
    unfold str_truthy. destruct (String.eqb_spec d "") as [-> | Hd]; [discriminate |].
    cbn [negb]. intros [= <- <- <-]. split; [done |].
    exists inst. split_and!; try done.
Qed.

Lemma get_slack_api_for_service_channel_witness :
  "C456" ≠ "" ∧
  ∃ inst, slack_instance (test_service "PASSING" "ERROR" []) = Some inst ∧
    "https://slack.com/api/" = stub_urljoin (server_url inst) "api/" ∧
    api_headers = [("Authorization", JStr ("Bearer " +:+ access_token inst))] ∧
    (∀ c, slack_channel_id (test_service "PASSING" "ERROR" []) = Some c ->
          c ≠ "" -> "C456" = c) ∧
    (slack_channel_id (test_service "PASSING" "ERROR" []) = None ∨
     slack_channel_id (test_service "PASSING" "ERROR" []) = Some "" ->
     default_channel_id inst = Some "C456").
Proof.
  apply (get_slack_api_for_service_channel stub_urljoin
           (test_service "PASSING" "ERROR" [])).
  reflexivity.
Defined.

(** ** Resolution of the recipients *)

Lemma find_override_none (user : User) :
  List.find str_truthy (slack_user_id_overrides user) = None <->
  has_override user = false.
Proof.
  unfold has_override. induction (slack_user_id_overrides user) as [| o l IH]; [done |].
  simpl. destruct (str_truthy o); [split; discriminate | exact IH].
Qed.

Lemma find_override_some (user : User) (o : string) :
  List.find str_truthy (slack_user_id_overrides user) = Some o ->
  has_override user = true ∧ o ≠ "".
Proof.
  intros Hf. split.
  - destruct (has_override user) eqn:Hh; [done |].
    apply find_override_none in Hh. congruence.
  - apply List.find_some in Hf as [_ Ht]. intros ->. discriminate Ht.
Qed.

Section Resolution.

Context {Server : Type}.
Variable handle : Server -> Request -> Response * Server.
Variable urljoin : string -> string -> string.

#[local] Abbreviation after' req st :=
  (mkState (handle (srv st) req).2
     (trace st ++ [(req, (handle (srv st) req).1)]) (logs st)).

(** The first non-empty override of a user is the identifier, and finding
    it takes no request: the state stays as it is, whatever the server
    would answer. *)
Theorem cabot_user_override_no_request url headers user before o rest
    (st : State Server) :
  slack_user_id_overrides user = before ++ o :: rest ->
  Forall (fun x => x = "") before ->
  o ≠ "" ->
  _cabot_user_to_slack_user_id handle urljoin url headers user st = (Ok o, st).
Proof.
  intros Ho Hbefore Hne. unfold _cabot_user_to_slack_user_id. rewrite Ho.
  assert (List.find str_truthy (before ++ o :: rest) = Some o) as ->; [| done].
  clear Ho. induction Hbefore as [| x before -> _ IH]; simpl.
  - unfold str_truthy. by destruct (String.eqb_spec o "").
  - exact IH.
Qed.

(** The lookup by e-mail is one exchange, whatever its outcome. *)
Lemma email_lookup_run url headers address (st : State Server) :
  let req := lookup_request urljoin url headers address in
  ∃ r, _email_to_slack_user_id handle urljoin url headers address st = (r, after' req st)
       ∧ r ≠ OutOfFuel.
Proof.
  intros req. unfold _email_to_slack_user_id. unfold_monad.
  change (mkRequest GET _ _ _) with req. rewrite (http_run handle req st).
  generalize (handle (srv st) req).1 as response. intros response.
  destruct (_check_response response true) as [[] | e |] eqn:Hck.
  - destruct (response_json response) as [j | e |] eqn:Hj.
    + destruct (py_getitem j "user") as [u | e |] eqn:Hu.
      * destruct (py_getitem u "id") as [i | e |] eqn:Hi.
        -- destruct (as_str i) as [s | e |] eqn:Hs; eexists; (split; [reflexivity |]);
             try done.
           destruct i; discriminate Hs.
        -- eexists; split; [reflexivity | done].
        -- unfold py_getitem in Hi. repeat case_match; discriminate Hi.
      * eexists; split; [reflexivity | done].
      * unfold py_getitem in Hu. repeat case_match; discriminate Hu.
    + eexists; split; [reflexivity | done].
    + unfold response_json in Hj. case_match; discriminate Hj.
  - eexists; split; [reflexivity | done].
  - by apply check_response_returns in Hck.
Qed.

(** A lookup answered with a user object returns the identifier in it. *)
Lemma email_lookup_found url headers address uid o (st : State Server) :
  let req := lookup_request urljoin url headers address in
  200 <= status_code (handle (srv st) req).1 < 300 ->
  json_body (handle (srv st) req).1 = Some (JObj o) ->
  dict_lookup "ok" o = Some (JBool true) ->
  dict_lookup "user" o = Some (JObj [("id", JStr uid)]) ->
  _email_to_slack_user_id handle urljoin url headers address st = (Ok uid, after' req st).
Proof.
  intros req Hst Hj Hok Hu. unfold _email_to_slack_user_id. unfold_monad.
  change (mkRequest GET _ _ _) with req. rewrite (http_run handle req st).
  rewrite (check_response_envelope _ o); [| lia | done]. rewrite Hok. cbn [default py_truthy].
  unfold response_json. rewrite Hj. cbn [py_getitem]. rewrite Hu.
  reflexivity.
Qed.



(** One turn of the resolution loop: it issues the lookup exactly when the
    user has no override, and either ends with an exception outside the two
    caught classes or goes on with at most one of the two lists longer. *)
Lemma resolve_users_step url headers user users user_ids missing_users
    (st : State Server) :
  let req := lookup_request urljoin url headers (email user) in
  let tr1 := if has_override user then [] else [(req, (handle (srv st) req).1)] in
  (∃ e st', resolve_users handle urljoin url headers (user :: users)
              user_ids missing_users st = (Raise e, st')
            ∧ trace st' = trace st ++ tr1 ∧ http_or_api e = false)
  ∨ (∃ u' m' st', resolve_users handle urljoin url headers (user :: users)
                    user_ids missing_users st =
                    resolve_users handle urljoin url headers users u' m' st'
                  ∧ trace st' = trace st ++ tr1
                  ∧ ((∃ i, i ≠ IGNORE_USER_ID ∧ u' = user_ids ++ [i] ∧ m' = missing_users)
                     ∨ (u' = user_ids ∧ m' = missing_users)
                     ∨ (u' = user_ids ∧ m' = missing_users ++ [user]))).
Proof.
  intros req tr1. cbn [resolve_users].
  unfold _cabot_user_to_slack_user_id. unfold_monad.
  destruct (List.find str_truthy (slack_user_id_overrides user)) as [o |] eqn:Hf.
  - apply find_override_some in Hf as [Hh _]. subst tr1. rewrite Hh.
    right. destruct (String.eqb o IGNORE_USER_ID) eqn:Hi; cbn [negb].
    + exists user_ids, missing_users, st. rewrite app_nil_r. split_and!; try done.
      right; by left.
    + exists (user_ids ++ [o]), missing_users, st. rewrite app_nil_r.
      split_and!; try done. left. exists o. by apply String.eqb_neq in Hi.
  - apply find_override_none in Hf. subst tr1. rewrite Hf.
    destruct (email_lookup_run url headers (email user) st) as (r & Hrun & Hr).
    fold req in Hrun. rewrite Hrun.
    destruct r as [i | e |]; [| | done].
    + right. destruct (String.eqb i IGNORE_USER_ID) eqn:Hi; cbn [negb].
      * eexists user_ids, missing_users, _. split_and!; try done. right; by left.
      * eexists (user_ids ++ [i]), missing_users, _. split_and!; try done.
        left. exists i. by apply String.eqb_neq in Hi.
    + destruct e as [m | t errs | m | m | k | |]; cbn [http_or_api is_api_error exn_error_type negb].
      * left. eexists _, _. split_and!; done.
      * right. destruct (py_eq_str t "users_not_found"); cbn [negb].
        -- eexists user_ids, (missing_users ++ [user]), _. split_and!; try done.
           right; by right.
        -- eexists user_ids, (missing_users ++ [user]), _. split_and!; try done.
           right; by right.
      * left. eexists _, _. split_and!; done.
      * left. eexists _, _. split_and!; done.
      * left. eexists _, _. split_and!; done.
      * left. eexists _, _. split_and!; done.
      * left. eexists _, _. split_and!; done.
Qed.

(** The resolution loop from any two lists. *)
Lemma resolve_users_run url headers users user_ids missing_users
    (st : State Server) :
  ∃ r st' tr looked,
    resolve_users handle urljoin url headers users user_ids missing_users st = (r, st') ∧
    trace st' = trace st ++ tr ∧
    tr.*1 = lookup_request urljoin url headers <$> (email <$> looked) ∧
(looked `prefix_of` List.filter (fun u => negb (has_override u)) users) ∧
    r ≠ OutOfFuel ∧
    (∀ u' m', r = Ok (u', m') ->
       looked = List.filter (fun u => negb (has_override u)) users ∧
       ∃ ids ms, u' = user_ids ++ ids ∧ m' = missing_users ++ ms ∧
                 (IGNORE_USER_ID ∉ ids) ∧ (ms `sublist_of` users) ∧
                 (length ids + length ms <= length users)%nat).
Proof.
  revert user_ids missing_users st.
  induction users as [| user users IH]; intros user_ids missing_users st.
  - exists (Ok (user_ids, missing_users)), st, [], [].
    rewrite app_nil_r. split_and!; try done.
    intros u' m' [= <- <-]. split; [done |]. exists [], [].
    rewrite !app_nil_r. split_and!; try done. apply not_elem_of_nil.
  - destruct (resolve_users_step url headers user users user_ids missing_users st)
      as [(e & st' & Hrun & Htr & He) | (u' & m' & st1 & Hrun & Htr & Hrel)].
    + exists (Raise e), st'.
      destruct (has_override user) eqn:Hh.
      * exists [], []. split_and!; try done. apply prefix_nil.
      * eexists [_], [user]. split_and!; try done.
        cbn [List.filter]. rewrite Hh. cbn [negb]. apply prefix_cons, prefix_nil.
    + destruct (IH u' m' st1) as (r & st' & tr & looked & Hrest & Htr' & Hreq & Hpre & Hr & Hok).
      rewrite Hrun. exists r, st'.
      destruct (has_override user) eqn:Hh; cbn [List.filter]; rewrite ?Hh; cbn [negb].
      * exists tr, looked. rewrite app_nil_r in Htr. rewrite Htr', Htr.
        split_and!; try done.
        intros u'' m'' Hrok. destruct (Hok u'' m'' Hrok) as (Hl & ids & ms & -> & -> & Hni & Hsub & Hlen).
        split; [done |].
        destruct Hrel as [(i & Hi & -> & ->) | [[-> ->] | [-> ->]]].
        -- exists (i :: ids), ms. rewrite <- !(assoc_L (++)). simpl.
           split_and!; try done; [| by apply sublist_cons | lia].
           apply not_elem_of_cons. split; [congruence | done].
        -- exists ids, ms. split_and!; try done; [by apply sublist_cons | simpl; lia].
        -- exists ids, (user :: ms). rewrite <- !(assoc_L (++)). simpl.
           split_and!; try done; [by apply sublist_skip | lia].
      * eexists (_ :: tr), (user :: looked). rewrite Htr', Htr.
        rewrite <- !(assoc_L (++)). rewrite !fmap_cons. rewrite Hreq. simpl.
        split_and!; try done; [by apply prefix_cons |].
        intros u'' m'' Hrok. destruct (Hok u'' m'' Hrok) as (Hl & ids & ms & -> & -> & Hni & Hsub & Hlen).
        split; [by rewrite Hl |].
        destruct Hrel as [(i & Hi & -> & ->) | [[-> ->] | [-> ->]]].
        -- exists (i :: ids), ms. rewrite <- !(assoc_L (++)). simpl.
           split_and!; try done; [| by apply sublist_cons | lia].
           apply not_elem_of_cons. split; [congruence | done].
        -- exists ids, ms. split_and!; try done; [by apply sublist_cons | simpl; lia].
        -- exists ids, (user :: ms). rewrite <- !(assoc_L (++)). simpl.
           split_and!; try done; [by apply sublist_skip | lia].
Qed.







End Resolution.

(** ** Dictionaries *)

Lemma dict_lookup_set_eq (k : string) (v : json) (d : dict) :
  dict_lookup k (dict_set k v d) = Some v.
Proof.
  induction d as [| [k' v'] d IH]; simpl.
  - by rewrite String.eqb_refl.
  - destruct (String.eqb k k') eqn:Hk; simpl; [by rewrite String.eqb_refl |].
    by rewrite Hk.
Qed.

Lemma dict_lookup_set_ne (k k' : string) (v : json) (d : dict) :
  k ≠ k' -> dict_lookup k (dict_set k' v d) = dict_lookup k d.
Proof.
  intros Hne. induction d as [| [k0 v0] d IH]; simpl.
  - by apply String.eqb_neq in Hne as ->.
  - destruct (String.eqb_spec k' k0) as [<- | Hk0]; simpl.
    + by apply String.eqb_neq in Hne as ->.
    + by rewrite IH.
Qed.

Lemma as_str_list_returns (j : json) : as_str_list j ≠ OutOfFuel.
Proof.
  destruct j as [| b | n | s | l | o]; try done. simpl.
  induction l as [| a l IH]; [done |].
  simpl. destruct a; simpl; try done.
  by destruct (as_str_list_aux l).
Qed.

Lemma next_cursor_returns (j : json) : next_cursor j ≠ OutOfFuel.
Proof.
  unfold next_cursor. destruct j; simpl; try done.
  by destruct (default (JObj []) (dict_lookup "response_metadata" o)).
Qed.

(** ** The requests of the steps *)

Section Frames.

Context {Server : Type}.
Variable handle : Server -> Request -> Response * Server.
Variable urljoin : string -> string -> string.

#[local] Abbreviation after'' req st :=
  (mkState (handle (srv st) req).2
     (trace st ++ [(req, (handle (srv st) req).1)]) (logs st)).

(** An exception outside the two classes passes through a handler for
    them. *)
Lemma try_except_passes {A} (m : M Server A) (h : exn -> M Server A) e
    (st st1 : State Server) :
  m st = (Raise e, st1) -> http_or_api e = false ->
  try_except m http_or_api h st = (Raise e, st1).
Proof. intros Hm He. unfold try_except. by rewrite Hm, He. Qed.

(** The join step is one exchange, whatever its outcome. *)
Lemma join_step_frame url headers channel_id (st : State Server) :
  ∃ r st', join_step handle urljoin url headers channel_id st = (r, st') ∧
           trace st' = trace st ++
             [(join_request urljoin url headers channel_id,
               (handle (srv st) (join_request urljoin url headers channel_id)).1)] ∧
           r ≠ OutOfFuel.
Proof.
  unfold join_step, try_except.
  rewrite (join_channel_checks handle urljoin url headers channel_id st).
  fold (join_request urljoin url headers channel_id).
  set (req := join_request urljoin url headers channel_id).
  destruct (_check_response (handle (srv st) req).1 true) as [[] | e |] eqn:Hck.
  - eexists _, _. split_and!; done.
  - destruct (http_or_api e); [| eexists _, _; split_and!; done].
    destruct (is_api_error _ e); eexists _, _; split_and!; done.
  - by apply check_response_returns in Hck.
Qed.

(** The post is one exchange, whatever its outcome. *)
Lemma post_message_run url headers text blocks channel_id (st : State Server) :
  let req := post_request urljoin url headers channel_id text blocks in
  ∃ r, _post_message handle urljoin url headers text blocks channel_id st =
         (r, after'' req st)
       ∧ r ≠ OutOfFuel.
Proof.
  intros req. unfold _post_message. unfold_monad.
  change (mkRequest POST _ _ _) with req. rewrite (http_run handle req st).
  generalize (handle (srv st) req).1 as response. intros response.
  destruct (_check_response response true) as [[] | e |] eqn:Hck.
  - destruct (response_json response) as [j | e |] eqn:Hj.
    + destruct (py_getitem j "ts") as [f | e |] eqn:Hf; eexists; (split; [reflexivity |]);
        try done.
      unfold py_getitem in Hf. repeat case_match; discriminate Hf.
    + eexists; split; [reflexivity | done].
    + unfold response_json in Hj. case_match; discriminate Hj.
  - eexists; split; [reflexivity | done].
  - by apply check_response_returns in Hck.
Qed.

Lemma post_step_frame url headers text blocks channel_id (st : State Server) :
  ∃ r st', post_step handle urljoin url headers text blocks channel_id st = (r, st') ∧
           trace st' = trace st ++
             [(post_request urljoin url headers channel_id text blocks,
               (handle (srv st) (post_request urljoin url headers channel_id text blocks)).1)] ∧
           r ≠ OutOfFuel.
Proof.
  destruct (post_message_run url headers text blocks channel_id st) as (r & Hrun & Hr).
  unfold post_step, try_except. rewrite Hrun.
  destruct r as [ts | e |]; [| | done].
  - eexists _, _. split_and!; done.
  - destruct (http_or_api e); unfold_monad; eexists _, _; split_and!; done.
Qed.

(** The listing loop asks for the members of the same channel in every
    request, at most [fuel] times, and logs nothing. *)
Lemma members_loop_frame fuel url headers params user_ids (st : State Server) :
  ∃ r st' tr paramss,
    members_loop handle urljoin fuel url headers params user_ids st = (r, st') ∧
    trace st' = trace st ++ tr ∧ logs st' = logs st ∧
    tr.*1 = members_request urljoin url headers <$> paramss ∧
    (length paramss <= fuel)%nat ∧
    (r = OutOfFuel -> length paramss = fuel) ∧
    (r = OutOfFuel ∨ paramss ≠ []) ∧
    Forall (fun p => dict_lookup "channel" p = dict_lookup "channel" params) paramss.
Proof.
  revert params user_ids st.
  induction fuel as [| fuel IH]; intros params user_ids st.
  - exists OutOfFuel, st, [], []. rewrite app_nil_r. split_and!; try done. by left.
  - cbn [members_loop]. unfold_monad.
    change (mkRequest GET _ _ _) with (members_request urljoin url headers params).
    set (req := members_request urljoin url headers params).
    rewrite (http_run handle req st).
    set (response := (handle (srv st) req).1).
    assert (∀ (r : res (list string)), r ≠ OutOfFuel ->
              ∃ (r0 : res (list string)) st' tr paramss,
                (r, after'' req st) = (r0, st') ∧
                trace st' = trace st ++ tr ∧ logs st' = logs st ∧
                tr.*1 = members_request urljoin url headers <$> paramss ∧
                (length paramss <= S fuel)%nat ∧
                (r0 = OutOfFuel -> length paramss = S fuel) ∧
                (r0 = OutOfFuel ∨ paramss ≠ []) ∧
                Forall (fun p => dict_lookup "channel" p = dict_lookup "channel" params)
                  paramss) as Hstop.
    { intros r Hr. exists r, (after'' req st), [(req, response)], [params].
      split_and!; try done; [simpl; lia | by right | by repeat constructor]. }
    destruct (_check_response response true) as [[] | e |] eqn:Hck;
      [| by apply Hstop | by apply check_response_returns in Hck].
    destruct (response_json response) as [j | e |] eqn:Hj; [| by apply Hstop |].
    2: { unfold response_json in Hj. case_match; discriminate Hj. }
    destruct (py_getitem j "members") as [ms | e |] eqn:Hms; [| by apply Hstop |].
    2: { unfold py_getitem in Hms. repeat case_match; discriminate Hms. }
    destruct (as_str_list ms) as [ids | e |] eqn:Hids; [| by apply Hstop |].
    2: { by apply as_str_list_returns in Hids. }
    destruct (next_cursor j) as [c | e |] eqn:Hc; [| by apply Hstop |].
    2: { by apply next_cursor_returns in Hc. }
    destruct (py_truthy c); cbn [negb]; [| by apply Hstop].
    destruct (IH (dict_set "cursor" c params) (user_ids ++ ids) (after'' req st))
      as (r & st' & tr & paramss & Hrun & Htr & Hlg & Hreq & Hlen & Hof & _ & Hch).
    subst response. rewrite Hrun.
    exists r, st', ((req, (handle (srv st) req).1) :: tr), (params :: paramss).
    cbn [trace logs] in Htr, Hlg.
    split_and!; try done.
    + rewrite Htr. by rewrite <- (assoc_L (++)).
    + by rewrite !fmap_cons, Hreq.
    + simpl. lia.
    + intros Hr. simpl. by rewrite Hof.
    + by right.
    + constructor; [done |]. eapply Forall_impl; [exact Hch |].
      intros p Hp. cbn beta in Hp. rewrite Hp. by apply dict_lookup_set_ne.
Qed.


(** When every page announces a further one, no amount of fuel lets the
    listing loop return: it spends all of it, one request per unit. *)
Theorem members_loop_endless url headers :
  (∀ srv0 params, ∃ ids c,
     is_page (handle srv0 (members_request urljoin url headers params)).1 ids c ∧
     py_truthy c = true) ->
  ∀ fuel params user_ids (st : State Server),
    ∃ st', members_loop handle urljoin fuel url headers params user_ids st =
             (OutOfFuel, st')
           ∧ length (trace st') = (length (trace st) + fuel)%nat.
Proof.
  intros Hmore. induction fuel as [| fuel IH]; intros params user_ids st.
  - exists st. split; [done | lia].
  - destruct (Hmore (srv st) params) as (ids & c & Hp & Hc).
    rewrite (members_loop_page handle urljoin fuel url headers params user_ids st
               (handle (srv st) (members_request urljoin url headers params)).1
               (handle (srv st) (members_request urljoin url headers params)).2 ids c);
      [| by destruct (handle _ _) | done].
    rewrite Hc. cbn [negb].
    destruct (IH (dict_set "cursor" c params) (user_ids ++ ids)
                (mkState (handle (srv st) (members_request urljoin url headers params)).2
                   (trace st ++ [(members_request urljoin url headers params,
                                  (handle (srv st) (members_request urljoin url headers params)).1)])
                   (logs st))) as (st' & Hrun & Hlen).
    exists st'. split; [done |].
    rewrite Hlen. cbn [trace]. rewrite length_app. simpl. lia.
Qed.

Lemma ensure_channel_members_run fuel url headers channel_id user_ids
    (st : State Server) :
  ∃ r st' tr paramss invites,
    _ensure_channel_members handle urljoin fuel url headers channel_id user_ids st =
      (r, st') ∧
    trace st' = trace st ++ tr ∧ logs st' = logs st ∧
    tr.*1 = (members_request urljoin url headers <$> paramss) ++ invites ∧
    (length paramss <= fuel)%nat ∧
    (user_ids = [] -> tr = [] ∧ r = Ok tt) ∧
    (invites = [] ∨
     ∃ ids, invites = [invite_request urljoin url headers channel_id ids] ∧
            NoDup ids ∧ ids ⊆ user_ids ∧ paramss ≠ []) ∧
    (r = OutOfFuel -> invites = []).
Proof.
  unfold _ensure_channel_members.
  destruct user_ids as [| u user_ids]; cbn [length Nat.eqb].
  - exists (Ok tt), st, [], [], []. rewrite app_nil_r.
    split_and!; try done; [simpl; lia | by left].
  - unfold _get_channel_members. unfold_monad.
    destruct (members_loop_frame fuel url headers [("channel", JStr channel_id)] [] st)
      as (r & st1 & tr & paramss & Hrun & Htr & Hlg & Hreq & Hlen & Hof & Hne & _).
    rewrite Hrun.
    destruct r as [members | e |].
    + rewrite (http_run handle _ st1).
      set (ids := elements ((list_to_set (u :: user_ids) : gset string) ∖ list_to_set members)).
      fold (invite_request urljoin url headers channel_id ids).
      set (req := invite_request urljoin url headers channel_id ids).
      destruct (_check_response (handle (srv st1) req).1 true) as [[] | e |] eqn:Hck.
      3: by apply check_response_returns in Hck.
      all: eexists _, _, (tr ++ [(req, (handle (srv st1) req).1)]), paramss, [req].
      all: cbn [trace logs]; rewrite Htr, <- (assoc_L (++)), fmap_app, Hreq.
      all: split_and!; try done.
      all: right; exists ids; split_and!; try done;
        [apply NoDup_elements
        | intros x [Hx _]%elem_of_elements%elem_of_difference;
            by apply elem_of_list_to_set in Hx
        | by destruct Hne].
    + exists (Raise e), st1, tr, paramss, []. rewrite app_nil_r.
      split_and!; try done. by left.
    + exists OutOfFuel, st1, tr, paramss, []. rewrite app_nil_r.
      split_and!; try done. by left.
Qed.

(** The reconciliation asks for the listing and then sends at most one
    invite; the invited identifiers are distinct, all among those asked
    for, and nothing at all is requested for an empty list.  When the
    listing runs out of fuel, no invite is sent, and an invite is never
    sent without a listing request before it. *)
Theorem ensure_channel_members_frame fuel url headers channel_id user_ids
    (st : State Server) :
  ∃ r st' tr paramss invites,
    _ensure_channel_members handle urljoin fuel url headers channel_id user_ids st =
      (r, st') ∧
    trace st' = trace st ++ tr ∧ logs st' = logs st ∧
    tr.*1 = (members_request urljoin url headers <$> paramss) ++ invites ∧
    (length paramss <= fuel)%nat ∧
    (user_ids = [] -> tr = [] ∧ r = Ok tt) ∧
    (invites = [] ∨
     ∃ ids, invites = [invite_request urljoin url headers channel_id ids] ∧
            NoDup ids ∧ ids ⊆ user_ids ∧ paramss ≠ []) ∧
    (r = OutOfFuel -> invites = []).
Proof. apply ensure_channel_members_run. Qed.

End Frames.

(** ** The requests of a whole send *)

Section Sending.

Context {Server : Type}.
Variable handle : Server -> Request -> Response * Server.
Variable urljoin : string -> string -> string.
Variable check_url : Z -> string.
Variable profile_url : Z -> string.
Variable JENKINS_API : string.

#[local] Abbreviation send_alert'' :=
  (send_alert handle urljoin check_url profile_url JENKINS_API).

Lemma members_step_frame fuel url headers channel_id user_ids (st : State Server) :
  ∃ r st' tr paramss invites,
    members_step handle urljoin fuel url headers channel_id user_ids st = (r, st') ∧
    trace st' = trace st ++ tr ∧
    tr.*1 = (members_request urljoin url headers <$> paramss) ++ invites ∧
    (length paramss <= fuel)%nat ∧
    (invites = [] ∨
     ∃ ids, invites = [invite_request urljoin url headers channel_id ids] ∧
            NoDup ids ∧ ids ⊆ user_ids ∧ paramss ≠ []).
Proof.
  destruct (ensure_channel_members_run handle urljoin fuel url headers channel_id
              user_ids st)
    as (r & st1 & tr & paramss & invites & Hrun & Htr & _ & Hreq & Hlen & _ & Hinv & _).
  unfold members_step, try_except. rewrite Hrun.
  destruct r as [[] | e |]; [| destruct (http_or_api e) |];
    eexists _, _, tr, paramss, invites; (split; [reflexivity |]); by split_and!.
Qed.

Lemma upload_step_frame url headers channel_id ts checks (st : State Server) :
  ∃ r st' tr done,
    upload_step handle urljoin url headers channel_id ts checks st = (r, st') ∧
    trace st' = trace st ++ tr ∧
    tr.*1 = upload_request urljoin url headers channel_id ts <$> done ∧
    done `prefix_of` with_image (take 5 checks).
Proof.
  destruct (upload_loop_trace handle urljoin url headers channel_id ts (take 5 checks) st)
    as (done & tr & r & st1 & Hrun & Htr & _ & Hreq & Hpre & _ & _).
  unfold upload_step, try_except. rewrite Hrun.
  destruct r as [[] | e |]; [| destruct (http_or_api e) |];
    eexists _, _, tr, done; (split; [reflexivity |]); by split_and!.
Qed.

(** The shape of the requests of one [send_alert]: none at all, or the
    join first, then the lookups of the recipients without override, in
    order, then the pages of the member listing, then at most one invite,
    then at most one post, and after the post only uploads, for a prefix of
    the images of the first five failing checks. *)
Theorem send_alert_requests fuel service users duty_officers (st : State Server) :
  ∃ r st' tr,
    send_alert'' fuel service users duty_officers st = (r, st') ∧
    trace st' = trace st ++ tr ∧
    (tr = [] ∨
     ∃ url headers channel_id looked paramss invites rest,
       _get_slack_api_for_service urljoin service = Ok (url, headers, channel_id) ∧
       tr.*1 = join_request urljoin url headers channel_id ::
                 (lookup_request urljoin url headers <$> (email <$> looked)) ++
                 (members_request urljoin url headers <$> paramss) ++ invites ++ rest ∧
       (looked `prefix_of`
          List.filter (fun u => negb (has_override u)) (users ++ duty_officers)) ∧
       (length paramss <= fuel)%nat ∧
       (invites = [] ∨
        ∃ ids, invites = [invite_request urljoin url headers channel_id ids] ∧ NoDup ids) ∧
       (rest = [] ∨
        ∃ blocks ts done,
          rest = post_request urljoin url headers channel_id (post_text service) blocks ::
                   (upload_request urljoin url headers channel_id ts <$> done) ∧
          (done `prefix_of` with_image (take 5 (all_failing_checks service))))).
Proof.
  unfold send_alert.
  destruct (mention_policy _ _) as [im |].
  2: { exists (Ok tt), st, []. rewrite app_nil_r. split_and!; try done. by left. }
  unfold mbind, M_bind, lift.
  destruct (_get_slack_api_for_service urljoin service)
    as [[[url headers] channel_id] | e |] eqn:Hapi.
  2, 3: eexists _, st, []; rewrite app_nil_r; split_and!; try done; by left.
  cbn beta iota.
  destruct (join_step_frame handle urljoin url headers channel_id st)
    as (r1 & st1 & Hj & Htr1 & _).
  rewrite Hj.
  assert (∀ (r : res unit) (st' : State Server) tr looked paramss invites rest,
            trace st' = trace st ++ tr ->
            tr.*1 = join_request urljoin url headers channel_id ::
                      (lookup_request urljoin url headers <$> (email <$> looked)) ++
                      (members_request urljoin url headers <$> paramss) ++ invites ++ rest ->
            (looked `prefix_of`
               List.filter (fun u => negb (has_override u)) (users ++ duty_officers)) ->
            (length paramss <= fuel)%nat ->
            (invites = [] ∨
             ∃ ids, invites = [invite_request urljoin url headers channel_id ids] ∧ NoDup ids) ->
            (rest = [] ∨
             ∃ blocks ts done,
               rest = post_request urljoin url headers channel_id (post_text service) blocks ::
                        (upload_request urljoin url headers channel_id ts <$> done) ∧
               (done `prefix_of` with_image (take 5 (all_failing_checks service)))) ->
            ∃ r0 st0 tr0,
              (r, st') = (r0, st0) ∧ trace st0 = trace st ++ tr0 ∧
              (tr0 = [] ∨
               ∃ url0 headers0 channel_id0 looked paramss invites rest,
                 Ok (url, headers, channel_id) = Ok (url0, headers0, channel_id0) ∧
                 tr0.*1 = join_request urljoin url0 headers0 channel_id0 ::
                   (lookup_request urljoin url0 headers0 <$> (email <$> looked)) ++
                   (members_request urljoin url0 headers0 <$> paramss) ++ invites ++ rest ∧
                 (looked `prefix_of`
                    List.filter (fun u => negb (has_override u)) (users ++ duty_officers)) ∧
                 (length paramss <= fuel)%nat ∧
                 (invites = [] ∨
                  ∃ ids, invites = [invite_request urljoin url0 headers0 channel_id0 ids]
                         ∧ NoDup ids) ∧
                 (rest = [] ∨
                  ∃ blocks ts done,
                    rest = post_request urljoin url0 headers0 channel_id0
                             (post_text service) blocks ::
                             (upload_request urljoin url0 headers0 channel_id0 ts <$> done) ∧
                    (done `prefix_of` with_image (take 5 (all_failing_checks service)))))) as Hshape.
  { intros r st' tr looked paramss invites rest Htr Hreq Hl Hp Hi Hr.
    exists r, st', tr. split_and!; try done. right.
    exists url, headers, channel_id, looked, paramss, invites, rest. by split_and!. }
  destruct r1 as [[] | e1 |].
  2, 3: eapply (Hshape _ st1 _ [] [] [] []);
    [exact Htr1 | done | apply prefix_nil | simpl; lia | by left | by left].
  destruct (resolve_users_run handle urljoin url headers (users ++ duty_officers)
              [] [] st1)
    as (r2 & st2 & tr2 & looked & Hres & Htr2 & Hreq2 & Hpre2 & _ & _).
  rewrite Hres.
  assert (trace st2 = trace st ++
            (join_request urljoin url headers channel_id,
             (handle (srv st) (join_request urljoin url headers channel_id)).1) :: tr2) as Htr12.
  { rewrite Htr2, Htr1. by rewrite <- (assoc_L (++)). }
  destruct r2 as [[user_ids missing_users] | e2 |].
  2, 3: eapply (Hshape _ st2 _ looked [] [] []);
    [exact Htr12 | rewrite fmap_cons, Hreq2; simpl; by rewrite app_nil_r
    | done | simpl; lia | by left | by left].
  destruct (members_step_frame fuel url headers channel_id user_ids st2)
    as (r3 & st3 & tr3 & paramss & invites & Hmem & Htr3 & Hreq3 & Hlen3 & Hinv3).
  rewrite Hmem.
  assert (trace st3 = trace st ++
            ((join_request urljoin url headers channel_id,
              (handle (srv st) (join_request urljoin url headers channel_id)).1) :: tr2)
            ++ tr3) as Htr123.
  { rewrite Htr3, Htr12. by rewrite <- (assoc_L (++)). }
  assert (invites = [] ∨
          ∃ ids, invites = [invite_request urljoin url headers channel_id ids] ∧ NoDup ids)
    as Hinv.
  { destruct Hinv3 as [-> | (ids & -> & Hnd & _)]; [by left | right; eauto]. }
  destruct r3 as [[] | e3 |].
  2, 3: eapply (Hshape _ st3 _ looked paramss invites []);
    [exact Htr123
    | rewrite fmap_app, fmap_cons, Hreq2, Hreq3; simpl; by rewrite app_nil_r
    | done | done | done | by left].
  set (blocks := compose_blocks _ _ _ _ _ _ _ _ _).
  destruct (post_step_frame handle urljoin url headers
              (service_name service +:+ " is " +:+ overall_status service)
              blocks channel_id st3)
    as (r4 & st4 & Hpost & Htr4 & _).
  rewrite Hpost.
  set (preq := post_request urljoin url headers channel_id
                 (service_name service +:+ " is " +:+ overall_status service) blocks) in *.
  assert (trace st4 = trace st ++
            (((join_request urljoin url headers channel_id,
              (handle (srv st) (join_request urljoin url headers channel_id)).1) :: tr2)
            ++ tr3) ++ [(preq, (handle (srv st3) preq).1)]) as Htr1234.
  { rewrite Htr4, Htr123. by rewrite <- !(assoc_L (++)). }
  destruct r4 as [ts | e4 |].
  2, 3: eapply (Hshape _ st4 _ looked paramss invites [preq]);
    [exact Htr1234
    | rewrite !fmap_app, fmap_cons, Hreq2, Hreq3; simpl; by rewrite <- !(assoc_L (++))
    | done | done | done
    | right; exists blocks, JNull, []; split; [done | apply prefix_nil]].
  destruct (upload_step_frame url headers channel_id ts (all_failing_checks service) st4)
    as (r5 & st5 & tr5 & done & Hup & Htr5 & Hreq5 & Hpre5).
  rewrite Hup.
  eapply (Hshape _ st5 _ looked paramss invites
            (preq :: (upload_request urljoin url headers channel_id ts <$> done))).
  - rewrite Htr5, Htr1234. by rewrite <- !(assoc_L (++)).
  - rewrite !fmap_app, fmap_cons, Hreq2, Hreq3, Hreq5. simpl.
    by rewrite <- !(assoc_L (++)).
  - done.
  - done.
  - done.
  - right. exists blocks, ts, done. by split.
Qed.


(** A service without configuration ends a send that is not suppressed
    with the configuration error, before any request and any log entry; a
    suppressed send returns before the configuration is even read. *)
Theorem send_alert_unconfigured fuel service users duty_officers e (st : State Server) :
  _get_slack_api_for_service urljoin service = Raise e ->
  send_alert'' fuel service users duty_officers st =
    match mention_policy (overall_status service) (old_overall_status service) with
    | None => (Ok tt, st)
    | Some _ => (Raise e, st)
    end.
Proof.
  intros Hapi. unfold send_alert.
  destruct (mention_policy _ _); [| done].
  unfold mbind, M_bind, lift. by rewrite Hapi.
Qed.

(** Exceptions outside of [HTTPError] and [SlackAPIError] are caught
    nowhere: raised by the join, by the post or by an upload, they end
    [send_alert] at once, with the requests made so far and without a log
    entry of their own. *)
Theorem send_alert_uncaught fuel service users duty_officers e (st : State Server) :
  http_or_api e = false ->
  (∀ im url headers channel_id st1,
     mention_policy (overall_status service) (old_overall_status service) = Some im ->
     _get_slack_api_for_service urljoin service = Ok (url, headers, channel_id) ->
     _join_channel handle urljoin url headers channel_id st = (Raise e, st1) ->
     send_alert'' fuel service users duty_officers st = (Raise e, st1))
  ∧ (∀ url headers channel_id blocks st3 st4,
       reaches_post handle urljoin check_url profile_url JENKINS_API
         fuel service users duty_officers st url headers channel_id blocks st3 ->
       _post_message handle urljoin url headers (post_text service) blocks channel_id st3 =
         (Raise e, st4) ->
       send_alert'' fuel service users duty_officers st = (Raise e, st4))
  ∧ (∀ url headers channel_id blocks st3 ts st4 st5,
       reaches_post handle urljoin check_url profile_url JENKINS_API
         fuel service users duty_officers st url headers channel_id blocks st3 ->
       _post_message handle urljoin url headers (post_text service) blocks channel_id st3 =
         (Ok ts, st4) ->
       upload_loop handle urljoin url headers channel_id ts
         (take 5 (all_failing_checks service)) st4 = (Raise e, st5) ->
       send_alert'' fuel service users duty_officers st = (Raise e, st5)).
Proof.
  intros He. split_and!.
  - intros im url headers channel_id st1 Hpol Hapi Hj.
    unfold send_alert. rewrite Hpol. unfold mbind, M_bind, lift. rewrite Hapi.
    cbn beta iota. unfold join_step.
    by rewrite (try_except_passes _ _ e st st1 Hj He).
  - intros url headers channel_id blocks st3 st4 Hreach Hpost.
    rewrite (send_alert_from_post handle urljoin check_url profile_url JENKINS_API
               _ _ _ _ _ _ _ _ _ _ Hreach).
    unfold mbind, M_bind, post_step.
    by rewrite (try_except_passes _ _ e st3 st4 Hpost He).
  - intros url headers channel_id blocks st3 ts st4 st5 Hreach Hpost Hup.
    rewrite (send_alert_from_post handle urljoin check_url profile_url JENKINS_API
               _ _ _ _ _ _ _ _ _ _ Hreach).
    unfold mbind, M_bind. unfold post_step at 1, try_except at 1. rewrite Hpost.
    unfold upload_step.
    by rewrite (try_except_passes _ _ e st4 st5 Hup He).
Qed.

(** An override that the validator accepts is used as it is: the user is
    identified without a request, is never dropped as ignored and never
    reported missing. *)
Theorem validated_override_is_used url headers user users user_ids missing_users o
    (st : State Server) :
  List.find str_truthy (slack_user_id_overrides user) = Some o ->
  validate_slack_user_id o = Valid ->
  resolve_users handle urljoin url headers (user :: users) user_ids missing_users st =
    resolve_users handle urljoin url headers users (user_ids ++ [o]) missing_users st.
Proof.
  intros Hf Hv. cbn [resolve_users]. unfold _cabot_user_to_slack_user_id. rewrite Hf.
  unfold_monad.
  assert (String.eqb o IGNORE_USER_ID = false) as ->; [| done].
  apply String.eqb_neq. intros ->. discriminate Hv.
Qed.

End Sending.

(** ** The response check on malformed bodies *)

(** Once the status has passed: without the envelope check the body is
    not looked at; with it, a body that is not JSON raises [ValueError]
    and a JSON body that is not an object raises [AttributeError], neither
    of which the dispatcher catches. *)
Theorem check_response_malformed (response : Response) :
  ¬ (400 <= status_code response < 600) ->
  _check_response response false = Ok tt
  ∧ (json_body response = None -> _check_response response true = Raise ValueError)
  ∧ (∀ j, json_body response = Some j -> (∀ o, j ≠ JObj o) ->
       _check_response response true = Raise (AttributeError "get"))
  ∧ (∀ e, _check_response response true = Raise e -> http_or_api e = false ->
       e = ValueError ∨ e = AttributeError "get").
Proof.
  intros Hst. unfold _check_response, response_json.
  rewrite (raise_for_status_passing _ Hst). split_and!.
  - done.
  - by intros ->.
  - intros j -> Hj. destruct j; try done. by destruct (Hj o).
  - intros e. destruct (json_body response) as [j |]; simpl.
    + destruct j; simpl; try (intros [= <-]; by right).
      destruct (py_truthy _); simpl; [discriminate |]. by intros [= <-].
    + intros [= <-]. by left.
Qed.

(** ** The blocks of the message *)

Lemma str_truthy_app_r (a b : string) :
  str_truthy b = true -> str_truthy (a +:+ b) = true.
Proof.
  unfold str_truthy. destruct a as [| c a]; [done |]. by destruct b.
Qed.

Section Blocks.

Variable urljoin : string -> string -> string.
Variable check_url : Z -> string.
Variable profile_url : Z -> string.
Variable JENKINS_API : string.

#[local] Abbreviation check_block' := (check_block urljoin check_url JENKINS_API).

(** The button of a section block.  A Jenkins check that is no metrics
    check always has one, labelled Jenkins and linked to the console of
    its job, whatever its own status link; a metrics check has one,
    labelled Grafana, exactly when it has a non-empty status link, also
    when its category is the one of Jenkins; any other check with a
    non-empty status link has a button with an empty label. *)
Theorem check_block_accessory (check : Check) :
  dict_lookup "accessory" (check_block' check) =
    if is_metrics_check check then
      match status_link check with
      | Some link => if String.eqb link "" then None else Some (button "Grafana" link)
      | None => None
      end
    else if String.eqb (check_category check) "Jenkins Check" then
      Some (button "Jenkins" (jenkins_link urljoin JENKINS_API check))
    else
      match status_link check with
      | Some link => if String.eqb link "" then None else Some (button "" link)
      | None => None
      end.
Proof.
  unfold check_block.
  destruct (is_metrics_check check);
    [| destruct (String.eqb (check_category check) "Jenkins Check")].
  - destruct (status_link check) as [l |]; [| done].
    unfold str_truthy. by destruct (String.eqb l "").
  - assert (str_truthy (urljoin JENKINS_API "/" +:+ "job/" +:+ check_name check +:+ "/" +:+
              str_of_opt_int (match last_result check with
                              | Some r => job_number r
                              | None => None
                              end) +:+ "/console") = true) as Ht.
    { by apply str_truthy_app_r. }
    rewrite Ht. unfold jenkins_link, button.
    by destruct (last_result check).
  - destruct (status_link check) as [l |]; [| done].
    unfold str_truthy. by destruct (String.eqb l "").
Qed.



End Blocks.

(** The emoji of the header is empty exactly for a status outside the five
    names, and the five names have five different emojis. *)
Theorem emoji_get_known (status : string) :
  (emoji_get status EMOJIS ≠ "" <-> status ∈ status_names)
  ∧ (∀ other, status ∈ status_names -> other ∈ status_names ->
       emoji_get status EMOJIS = emoji_get other EMOJIS -> status = other).
Proof.
  unfold status_names, PASSING_STATUS, WARNING_STATUS, ERROR_STATUS, CRITICAL_STATUS,
    ACKED_STATUS.
  split; [split |].
  - unfold EMOJIS, emoji_get.
    destruct (String.eqb_spec status "WARNING") as [-> | ?]; [intros _; set_solver |].
    destruct (String.eqb_spec status "ERROR") as [-> | ?]; [intros _; set_solver |].
    destruct (String.eqb_spec status "CRITICAL") as [-> | ?]; [intros _; set_solver |].
    destruct (String.eqb_spec status "PASSING") as [-> | ?]; [intros _; set_solver |].
    destruct (String.eqb_spec status "ACKED") as [-> | ?]; [intros _; set_solver |].
    done.
  - intros H. repeat (apply elem_of_cons in H as [-> | H]; [by vm_compute |]).
    by apply elem_of_nil in H.
  - intros other H H'.
    repeat (apply elem_of_cons in H as [-> | H];
            [repeat (apply elem_of_cons in H' as [-> | H']; [by vm_compute |]);
             by apply elem_of_nil in H' |]).
    by apply elem_of_nil in H.
Qed.

(** The escaped check name is longer than the name by the number of its
    [>], and the escaped error by the number of its backticks. *)
Theorem escaped_lengths (check : Check) :
  String.length (escaped_name check) =
    (String.length (check_name check) + occurrences ">"%char (check_name check))%nat
  ∧ String.length (escaped_error (last_error check)) =
      (String.length (default "" (last_error check)) +
       occurrences "`"%char (default "" (last_error check)))%nat.
Proof.
  split.
  - unfold escaped_name. by rewrite py_replace_char, escape_each_length.
  - by rewrite escaped_error_each, escape_each_length.
Qed.

(** ** Concrete runs of the further properties *)

Lemma cabot_user_override_no_request_witness :
  _cabot_user_to_slack_user_id stub_handle stub_urljoin api_url api_headers
    overridden_user (initial lookup_down_stub) = (Ok "U123", initial lookup_down_stub).
Proof.
  apply (cabot_user_override_no_request stub_handle stub_urljoin api_url api_headers
           overridden_user [""] "U123" []).
  - reflexivity.
  - by repeat constructor.
  - discriminate.
Defined.


Lemma members_loop_endless_witness :
  ∃ st', members_loop endless_handle stub_urljoin 3 api_url api_headers
           [("channel", JStr "C456")] [] (mkState tt [] []) = (OutOfFuel, st')
         ∧ length (trace st') = (0 + 3)%nat.
Proof.
  apply (members_loop_endless endless_handle stub_urljoin api_url api_headers).
  intros s params. exists ["U1"], (JStr "bmV4dA=="). split; [| reflexivity].
  split; [simpl; lia |]. eexists. split_and!; try reflexivity.
  by eapply cursor_field.
Defined.

Lemma send_alert_unconfigured_witness :
  send_alert stub_handle stub_urljoin stub_check_url stub_profile_url
    "https://jenkins.example.com/" 10 (unconfigured_service "PASSING" "ERROR")
    [test_user] [] (initial happy_stub) =
    (Raise (RuntimeError "Slack instance not set."), initial happy_stub).
Proof.
  apply (send_alert_unconfigured stub_handle stub_urljoin stub_check_url stub_profile_url
           "https://jenkins.example.com/" 10 (unconfigured_service "PASSING" "ERROR")
           [test_user] [] (RuntimeError "Slack instance not set.")).
  reflexivity.
Defined.

Lemma send_alert_uncaught_witness :
  ∃ st4, stub_send_alert no_ts_stub (test_service "PASSING" "ERROR" [test_check])
           [test_user] = (Raise (KeyError "ts"), st4)
         ∧ logs st4 = [].
Proof.
  eexists. split.
  - unfold stub_send_alert.
    eapply (proj1 (proj2 (send_alert_uncaught stub_handle stub_urljoin
                            stub_check_url stub_profile_url "https://jenkins.example.com/"
                            10 (test_service "PASSING" "ERROR" [test_check]) [test_user] []
                            (KeyError "ts") (initial no_ts_stub) eq_refl))).
    + do 5 eexists. split_and!; vm_compute; reflexivity.
    + vm_compute; reflexivity.
  - reflexivity.
Defined.

Lemma validated_override_is_used_witness :
  resolve_users stub_handle stub_urljoin api_url api_headers
    [overridden_user; test_user] [] [] (initial lookup_down_stub) =
  resolve_users stub_handle stub_urljoin api_url api_headers
    [test_user] ([] ++ ["U123"]) [] (initial lookup_down_stub).
Proof.
  apply (validated_override_is_used stub_handle stub_urljoin api_url api_headers
           overridden_user [test_user] [] [] "U123"); reflexivity.
Defined.

Lemma check_response_malformed_witness :
  _check_response (status_response 200 "" "<html>") false = Ok tt
  ∧ _check_response (status_response 200 "" "<html>") true = Raise ValueError.
Proof.
  assert (¬ (400 <= status_code (status_response 200 "" "<html>") < 600)) as H
    by (simpl; lia).
  split.
  - apply (proj1 (check_response_malformed _ H)).
  - apply (proj1 (proj2 (check_response_malformed _ H))). reflexivity.
Defined.

Lemma ensure_channel_members_invites_witness :
  ∃ tr, length tr = 2%nat ∧
    _ensure_channel_members stub_handle stub_urljoin 5 api_url api_headers "C456"
      ["U3"; "U1"; "U3"] (initial two_page_stub) =
      (Ok tt,
       mkState (mkStub (join_response happy_stub) (lookup_response happy_stub) []
                  (invite_response happy_stub) (post_response happy_stub)
                  (upload_response happy_stub))
         ([] ++ tr ++
          [(invite_request stub_urljoin api_url api_headers "C456"
              (elements ((list_to_set ["U3"; "U1"; "U3"] : gset string) ∖
                         list_to_set ["U1"; "U2"])),
            ok_response [])])
         []).
Proof.
  apply (ensure_channel_members_invites stub_handle stub_urljoin 5 api_url api_headers
           "C456" ["U3"; "U1"; "U3"] 2 ["U1"; "U2"]
           (mkStub (join_response happy_stub) (lookup_response happy_stub) []
              (invite_response happy_stub) (post_response happy_stub)
              (upload_response happy_stub)) (ok_response [])
           (mkStub (join_response happy_stub) (lookup_response happy_stub) []
              (invite_response happy_stub) (post_response happy_stub)
              (upload_response happy_stub))
           (initial two_page_stub)).
  - discriminate.
  - exact two_page_listing.
  - lia.
  - reflexivity.
Defined.
